(** * The VirtualBox plugin: state-gated actions and the session guard

    A shallow embedding of [src/__init__.py] (class [Plugin]): the item
    builder [buildItem], the query handler [handleGlobalQuery], the start
    action [startVm], the context manager [sharedLockedSession] and the six
    actions that run under it; in module [Setup], the constructor [__init__]
    and [installSDK].

    The VirtualBox service is external.  Every call the plugin makes to it
    (and every line it logs) is recorded as an event, and what the service
    answers is given by an oracle that may depend on all the calls made so
    far.  Histories and event lists are kept NEWEST FIRST: the head of the
    list is the latest call. *)

From Stdlib Require Import List String Ascii ZArith Lia Bool.
From Stdlib.Strings Require Import Byte.
From Equations Require Import Equations.
Import ListNotations.
Local Open Scope Z_scope.

(** ** Handles, exceptions and calls *)

(** COM object references handed out by the service. *)
Definition IMachine := nat.
Definition ISession := nat.
Definition IProgress := nat.

(** A Python [Exception] instance; [str e] is its message.  Interrupts that
    are not [Exception]s are not failures of the service and are not
    modelled. *)
Inductive exn : Type :=
| Exception (msg : string).

Definition str (e : exn) : string :=
  match e with Exception msg => msg end.

(** The calls leaving the plugin, with their arguments. *)
Inductive call : Type :=
| getArray_machines                                   (* vbox_manager.getArray(vbox, "machines") *)
| getSessionObject                                    (* vbox_manager.getSessionObject(vbox) *)
| lockMachine (vm : IMachine) (s : ISession) (lockType : Z)
| unlockMachine (s : ISession)
| launchVMProcess (vm : IMachine) (s : ISession) (name environment : string)
| waitForCompletion (p : IProgress) (timeout : Z)
| console_powerButton (s : ISession)
| console_powerDown (s : ISession)
| console_saveState (s : ISession)
| console_pause (s : ISession)
| console_resume (s : ISession)
| machine_discardSavedState (s : ISession)
| info (msg : string)
| warning (msg : string).

(** [vbox_manager.constants]: the integer codes of the enumeration values
    the plugin names.  Their values belong to the SDK, not to the plugin. *)
Record Constants : Type := {
  MachineState_PoweredOff : Z;
  MachineState_Aborted : Z;
  MachineState_Saved : Z;
  MachineState_Running : Z;
  MachineState_Paused : Z;
  LockType_Shared : Z
}.

(** The service behind [vbox_manager]: for each call, its answer after the
    history [h] (newest first) of the calls made before it. *)
Record VirtualBoxManager : Type := {
  constants : Constants;
  machines : list call -> exn + list IMachine;
  sessionObject : list call -> exn + ISession;
  launched : list call -> IMachine -> ISession -> string -> string -> exn + IProgress;
  (** the calls that return nothing: [None] is a normal return *)
  raises : list call -> call -> option exn;
  (** attribute reads *)
  machine_id : list call -> IMachine -> string;
  machine_name : list call -> IMachine -> string;
  machine_state : list call -> IMachine -> Z;
  machine_type : IMachine -> string;                  (* the text of type(vm) *)
  getEnumValueName : string -> Z -> string
}.

(** ** Computations *)

Inductive outcome (A : Type) : Type :=
| Return (a : A)
| Raise (e : exn).
Arguments Return {A} a.
Arguments Raise {A} e.

(** A computation reads the history and gives its outcome together with the
    events it produced itself (newest first). *)
Definition M (A : Type) : Type := list call -> outcome A * list call.

Definition ret {A} (a : A) : M A := fun _ => (Return a, []).

Definition bind {A B} (m : M A) (f : A -> M B) : M B :=
  fun h =>
    match m h with
    | (Return a, es) => let (r, es') := f a (es ++ h) in (r, es' ++ es)
    | (Raise e, es) => (Raise e, es)
    end.

Notation "x <- m ;; k" := (bind m (fun x => k))
  (at level 61, m at next level, right associativity).
Notation "m ;;; k" := (bind m (fun _ => k))
  (at level 61, right associativity).

(** [try: body except Exception as e: handler e] *)
Definition try_except {A} (body : M A) (handler : exn -> M A) : M A :=
  fun h =>
    match body h with
    | (Return a, es) => (Return a, es)
    | (Raise e, es) => let (r, es') := handler e (es ++ h) in (r, es' ++ es)
    end.

(** [try: body finally: final].  The [finally] block runs on both exits; an
    exception it raises replaces the outcome of the body. *)
Definition try_finally {A} (body : M A) (final : M unit) : M A :=
  fun h =>
    let (r, es) := body h in
    match final (es ++ h) with
    | (Return _, es') => (r, es' ++ es)
    | (Raise e', es') => (Raise e', es' ++ es)
    end.

(** A call whose answer is a value. *)
Definition ask {A} (c : call) (answer : list call -> exn + A) : M A :=
  fun h => (match answer h with inl e => Raise e | inr a => Return a end, [c]).

(** A call that returns nothing. *)
Definition perform (vbox : VirtualBoxManager) (c : call) : M unit :=
  fun h => (match raises vbox h c with Some e => Raise e | None => Return tt end, [c]).

(** An attribute read: no event of its own. *)
Definition read {A} (f : list call -> A) : M A := fun h => (Return (f h), []).

(** The logging sink never fails. *)
Definition log (c : call) : M unit := fun _ => (Return tt, [c]).

(** ** The plugin *)

Inductive Icon : Type :=
| Icon_fileType (path : string)
| Icon_theme (name : string).

(** [self]: the fields set up by [__init__]. *)
Record Plugin : Type := {
  icon_factory : Icon;
  vbox_manager : VirtualBoxManager
}.

Definition vbox_constants (self : Plugin) : Constants :=
  constants (vbox_manager self).

(** [albert.Action(id, text, callable)] *)
Record Action : Type := {
  action_id : string;
  action_text : string;
  action_callable : M unit
}.

(** [albert.StandardItem] with the keyword arguments [buildItem] passes. *)
Record StandardItem : Type := {
  item_id : string;
  item_text : string;
  item_subtext : string;
  item_input_action_text : string;
  item_icon_factory : Icon;
  item_actions : list Action
}.

(** *** startVm *)

(** The body of the [try] block of [startVm]. *)
Definition startVm_try (self : Plugin) (vm : IMachine) : M unit :=
  let vbox := vbox_manager self in
  name <- read (fun h => machine_name vbox h vm) ;;
  type_vm <- ret (machine_type vbox vm) ;;
  log (info ("Starting VM " ++ name ++ " " ++ type_vm ++ "...")) ;;;
  session <- ask getSessionObject (sessionObject vbox) ;;
  progress <- ask (launchVMProcess vm session "gui" "")
                  (fun h => launched vbox h vm session "gui" "") ;;
  perform vbox (waitForCompletion progress (-1)).

Definition startVm (self : Plugin) (vm : IMachine) : M unit :=
  try_except (startVm_try self vm)
             (fun e => log (warning (str e))).

(** *** sharedLockedSession *)

(** The generator under [@contextmanager] yields once, inside its [try]:
    [with self.sharedLockedSession(vm) as s: body] runs the generator up to
    the [yield], runs [body] with the yielded session there, and resumes the
    generator at the [yield] (raising there what [body] raised), so that the
    [finally] block runs around both the lock and the body.  The with-body is
    the argument [body]. *)
Definition sharedLockedSession {A} (self : Plugin) (vm : IMachine)
    (body : ISession -> M A) : M A :=
  let vbox := vbox_manager self in
  session <- ask getSessionObject (sessionObject vbox) ;;
  try_finally
    (perform vbox (lockMachine vm session (LockType_Shared (vbox_constants self))) ;;;
     body session)
    (perform vbox (unlockMachine session)).

(** *** The actions under a shared session *)

Definition acpiPowerVm (self : Plugin) (vm : IMachine) : M unit :=
  sharedLockedSession self vm
    (fun s => perform (vbox_manager self) (console_powerButton s)).

Definition stopVm (self : Plugin) (vm : IMachine) : M unit :=
  sharedLockedSession self vm
    (fun s => perform (vbox_manager self) (console_powerDown s)).

Definition saveVm (self : Plugin) (vm : IMachine) : M unit :=
  sharedLockedSession self vm
    (fun s => perform (vbox_manager self) (console_saveState s)).

Definition discardSavedVm (self : Plugin) (vm : IMachine) : M unit :=
  sharedLockedSession self vm
    (fun s => perform (vbox_manager self) (machine_discardSavedState s)).

Definition resumeVm (self : Plugin) (vm : IMachine) : M unit :=
  sharedLockedSession self vm
    (fun s => perform (vbox_manager self) (console_resume s)).

Definition pauseVm (self : Plugin) (vm : IMachine) : M unit :=
  sharedLockedSession self vm
    (fun s => perform (vbox_manager self) (console_pause s)).

(** *** buildItem *)

(** [x in xs] on integers *)
Definition in_list (x : Z) (xs : list Z) : bool := existsb (Z.eqb x) xs.

(** [actions.append(a)] / [actions.extend(as)] when [cond] holds *)
Definition extend_if (cond : bool) (actions new : list Action) : list Action :=
  if cond then actions ++ new else actions.

(** The list [actions] of [buildItem] once its four [if] statements have
    run, for the value [state] read from [vm.state]. *)
Definition buildItem_actions (self : Plugin) (vm : IMachine) (state : Z) : list Action :=
  let c := vbox_constants self in
  let actions := [] in
  let actions :=
    extend_if (in_list state [MachineState_PoweredOff c; MachineState_Aborted c]) actions
      [ {| action_id := "startvm"; action_text := "Start virtual machine";
           action_callable := startVm self vm |} ] in
  let actions :=
    extend_if (state =? MachineState_Saved c) actions
      [ {| action_id := "restorevm"; action_text := "Start saved virtual machine";
           action_callable := startVm self vm |};
        {| action_id := "discardvm"; action_text := "Discard saved state";
           action_callable := discardSavedVm self vm |} ] in
  let actions :=
    extend_if (state =? MachineState_Running c) actions
      [ {| action_id := "savevm"; action_text := "Save virtual machine";
           action_callable := saveVm self vm |};
        {| action_id := "poweroffvm"; action_text := "Power off via ACPI";
           action_callable := acpiPowerVm self vm |};
        {| action_id := "stopvm"; action_text := "Turn off virtual machine";
           action_callable := stopVm self vm |};
        {| action_id := "pausevm"; action_text := "Pause virtual machine";
           action_callable := pauseVm self vm |} ] in
  let actions :=
    extend_if (state =? MachineState_Paused c) actions
      [ {| action_id := "resumevm"; action_text := "Resume virtual machine";
           action_callable := resumeVm self vm |} ] in
  actions.

Definition buildItem (self : Plugin) (vm : IMachine) : M StandardItem :=
  let vbox := vbox_manager self in
  state <- read (fun h => machine_state vbox h vm) ;;
  let actions := buildItem_actions self vm state in
  id <- read (fun h => machine_id vbox h vm) ;;
  text <- read (fun h => machine_name vbox h vm) ;;
  state' <- read (fun h => machine_state vbox h vm) ;;
  input_action_text <- read (fun h => machine_name vbox h vm) ;;
  ret {| item_id := id;
         item_text := text;
         item_subtext := getEnumValueName vbox "MachineState" state';
         item_input_action_text := input_action_text;
         item_icon_factory := icon_factory self;
         item_actions := actions |}.

(** *** handleGlobalQuery *)

(** [albert.Query]: only its [string] is read. *)
Record Query : Type := {
  query_string : string
}.

(** [for x in xs: body], the loop body updating the local [acc]. *)
Fixpoint for_each {A B} (xs : list A) (body : B -> A -> M B) (acc : B) : M B :=
  match xs with
  | [] => ret acc
  | x :: xs' => acc' <- body acc x ;; for_each xs' body acc'
  end.

Section QueryHandler.

(** The host's matcher: [Matcher(query.string).match(text)] gives a [Match],
    whose truth value says whether the text matched. *)
Variable Match : Type.
Variable Match_bool : Match -> bool.
Variable Matcher_match : string -> string -> Match.

(** [albert.RankItem(item, match)] *)
Record RankItem : Type := {
  rank_item : StandardItem;
  rank_match : Match
}.

(** One turn of the loop of [handleGlobalQuery]. *)
Definition handleGlobalQuery_vm (self : Plugin) (matcher : string -> Match)
    (items : list RankItem) (vm : IMachine) : M (list RankItem) :=
  name <- read (fun h => machine_name (vbox_manager self) h vm) ;;
  let m := matcher name in
  if Match_bool m then
    item <- buildItem self vm ;;
    ret (items ++ [ {| rank_item := item; rank_match := m |} ])
  else ret items.

Definition handleGlobalQuery (self : Plugin) (query : Query) : M (list RankItem) :=
  let items := [] in
  let matcher := Matcher_match (query_string query) in
  vms <- ask getArray_machines (machines (vbox_manager self)) ;;
  for_each vms (handleGlobalQuery_vm self matcher) items.

End QueryHandler.

Arguments rank_item {Match} _.
Arguments rank_match {Match} _.

(** ** The state classifier of the specification *)

Inductive ActionKind : Type :=
| Start | RestoreSaved | DiscardSaved | Save | PowerButton | PowerDown | Pause | Resume.

(** The table of legal actions, in presentation order, as the
    specification gives it: the first row that names the state decides. *)
Definition legalActions (c : Constants) (state : Z) : list ActionKind :=
  if (state =? MachineState_PoweredOff c) || (state =? MachineState_Aborted c) then [Start]
  else if state =? MachineState_Saved c then [RestoreSaved; DiscardSaved]
  else if state =? MachineState_Running c then [Save; PowerButton; PowerDown; Pause]
  else if state =? MachineState_Paused c then [Resume]
  else [].

(** How [buildItem] presents and binds each kind of action. *)
Definition kind_id (k : ActionKind) : string :=
  match k with
  | Start => "startvm" | RestoreSaved => "restorevm" | DiscardSaved => "discardvm"
  | Save => "savevm" | PowerButton => "poweroffvm" | PowerDown => "stopvm"
  | Pause => "pausevm" | Resume => "resumevm"
  end.

Definition kind_text (k : ActionKind) : string :=
  match k with
  | Start => "Start virtual machine"
  | RestoreSaved => "Start saved virtual machine"
  | DiscardSaved => "Discard saved state"
  | Save => "Save virtual machine"
  | PowerButton => "Power off via ACPI"
  | PowerDown => "Turn off virtual machine"
  | Pause => "Pause virtual machine"
  | Resume => "Resume virtual machine"
  end.

Definition kind_method (k : ActionKind) : Plugin -> IMachine -> M unit :=
  match k with
  | Start => startVm | RestoreSaved => startVm | DiscardSaved => discardSavedVm
  | Save => saveVm | PowerButton => acpiPowerVm | PowerDown => stopVm
  | Pause => pauseVm | Resume => resumeVm
  end.

Definition bound_action (self : Plugin) (vm : IMachine) (k : ActionKind) : Action :=
  {| action_id := kind_id k;
     action_text := kind_text k;
     action_callable := kind_method k self vm |}.

(** The call each action makes on the locked session; the two kinds that
    launch the machine take no lock. *)
Definition session_call (k : ActionKind) (s : ISession) : option call :=
  match k with
  | Start | RestoreSaved => None
  | DiscardSaved => Some (machine_discardSavedState s)
  | Save => Some (console_saveState s)
  | PowerButton => Some (console_powerButton s)
  | PowerDown => Some (console_powerDown s)
  | Pause => Some (console_pause s)
  | Resume => Some (console_resume s)
  end.

(** The constants of an SDK are pairwise different codes. *)
Definition distinct_states (c : Constants) : Prop :=
  NoDup [MachineState_PoweredOff c; MachineState_Aborted c; MachineState_Saved c;
         MachineState_Running c; MachineState_Paused c].

(** ** Counting events *)

Definition count (p : call -> bool) (es : list call) : nat := List.length (filter p es).

Definition is_unlock (c : call) : bool :=
  match c with unlockMachine _ => true | _ => false end.

Definition is_lock (c : call) : bool :=
  match c with lockMachine _ _ _ => true | _ => false end.

Definition is_getSession (c : call) : bool :=
  match c with getSessionObject => true | _ => false end.

Definition is_enumeration (c : call) : bool :=
  match c with getArray_machines => true | _ => false end.

Definition is_warning (c : call) : bool :=
  match c with warning _ => true | _ => false end.

Definition is_log (c : call) : bool :=
  match c with info _ | warning _ => true | _ => false end.



(** ** A concrete service, for running the plugin *)

(** The codes of the VirtualBox 7 SDK. *)
Definition sdk7 : Constants :=
  {| MachineState_PoweredOff := 1;
     MachineState_Aborted := 4;
     MachineState_Saved := 2;
     MachineState_Running := 6;
     MachineState_Paused := 7;
     LockType_Shared := 1 |}.

(** Three machines, "work-vm", "test-vm" and "build-box", whose states after
    each history are [states]; the call [c] raises exactly when [fails c]
    says so. *)
Definition service (states : list call -> IMachine -> Z) (fails : call -> option exn)
    : VirtualBoxManager :=
  {| constants := sdk7;
     machines := fun _ =>
       match fails getArray_machines with
       | Some e => inl e
       | None => inr [0; 1; 2]%nat
       end;
     sessionObject := fun h =>
       match fails getSessionObject with
       | Some e => inl e
       | None => inr (count is_getSession h)
       end;
     launched := fun _ vm s name env =>
       match fails (launchVMProcess vm s name env) with
       | Some e => inl e
       | None => inr vm
       end;
     raises := fun _ c => fails c;
     machine_id := fun _ vm => nth vm ["id-work"; "id-test"; "id-build"]%string ""%string;
     machine_name := fun _ vm => nth vm ["work-vm"; "test-vm"; "build-box"]%string ""%string;
     machine_state := states;
     machine_type := fun _ => "IMachine"%string;
     getEnumValueName := fun _ v =>
       if v =? 1 then "PoweredOff"%string else if v =? 2 then "Saved"%string
       else if v =? 4 then "Aborted"%string else if v =? 6 then "Running"%string
       else if v =? 7 then "Paused"%string else "Other"%string |}.

Definition plugin (states : list call -> IMachine -> Z) (fails : call -> option exn)
    : Plugin :=
  {| icon_factory := Icon_theme "virtualbox";
     vbox_manager := service states fails |}.

(** Machine 0 powered off, machine 1 running, machine 2 in a transitional
    state (10, Starting). *)
Definition some_states (_ : list call) (vm : IMachine) : Z :=
  match vm with O => 1 | S O => 6 | _ => 10 end.

Definition is_discard (c : call) : bool :=
  match c with machine_discardSavedState _ => true | _ => false end.

(** Every machine is saved until a saved state has been discarded, and
    powered off from then on. *)
Definition saved_until_discarded (h : list call) (_ : IMachine) : Z :=
  if existsb is_discard h then 1 else 2.

Definition no_failure (c : call) : option exn := None.

Definition lock_fails (c : call) : option exn :=
  match c with
  | lockMachine _ _ _ => Some (Exception "machine is locked")
  | _ => None
  end.

Definition unlock_fails (c : call) : option exn :=
  match c with
  | unlockMachine _ => Some (Exception "session is not locked")
  | _ => None
  end.

Definition powerButton_fails (c : call) : option exn :=
  match c with
  | console_powerButton _ => Some (Exception "no ACPI")
  | _ => None
  end.

Definition getSession_fails (c : call) : option exn :=
  match c with
  | getSessionObject => Some (Exception "no session")
  | _ => None
  end.

Definition launch_fails (c : call) : option exn :=
  match c with
  | launchVMProcess _ _ _ _ => Some (Exception "cannot launch")
  | _ => None
  end.

Definition powerButton_and_unlock_fail (c : call) : option exn :=
  match c with
  | console_powerButton _ => Some (Exception "no ACPI")
  | unlockMachine _ => Some (Exception "session is not locked")
  | _ => None
  end.

Definition wait_fails (c : call) : option exn :=
  match c with
  | waitForCompletion _ _ => Some (Exception "launch failed")
  | _ => None
  end.

(** A matcher by substring, for the example of the specification. *)
Fixpoint contains (needle text : string) : bool :=
  String.prefix needle text ||
  match text with
  | EmptyString => false
  | String _ text' => contains needle text'
  end.

(** ** Statements the code is checked against *)

(** "If the lock fails, the call fails with that error and unlock is never
    called", for one call of the guard. *)
Definition failed_lock_skips_unlock {A} (self : Plugin) (vm : IMachine)
    (body : ISession -> M A) (h : list call) : Prop :=
  forall s e,
    sessionObject (vbox_manager self) h = inr s ->
    raises (vbox_manager self) (getSessionObject :: h)
           (lockMachine vm s (LockType_Shared (vbox_constants self))) = Some e ->
    fst (sharedLockedSession self vm body h) = Raise e
    /\ count is_unlock (snd (sharedLockedSession self vm body h)) = 0%nat.

(** "A failure of the unlock after a successful body is logged and does not
    mask the success", for one call of the guard. *)
Definition failed_unlock_keeps_success {A} (self : Plugin) (vm : IMachine)
    (body : ISession -> M A) (h : list call) : Prop :=
  forall s a body_events e',
    let lock := lockMachine vm s (LockType_Shared (vbox_constants self)) in
    sessionObject (vbox_manager self) h = inr s ->
    raises (vbox_manager self) (getSessionObject :: h) lock = None ->
    body s (lock :: getSessionObject :: h) = (Return a, body_events) ->
    raises (vbox_manager self) (body_events ++ lock :: getSessionObject :: h)
           (unlockMachine s) = Some e' ->
    fst (sharedLockedSession self vm body h) = Return a
    /\ (count is_log body_events < count is_log (snd (sharedLockedSession self vm body h)))%nat.

(** The entry of the result made for the machine [vm], read after [h]:
    the item [buildItem] builds for it, with its match. *)
Definition entry_of {Match : Type} (self : Plugin) (matcher : string -> Match)
    (h : list call) (vm : IMachine) (r : RankItem Match) : Prop :=
  buildItem self vm h = (Return (rank_item r), [])
  /\ rank_match r = matcher (machine_name (vbox_manager self) h vm).

(** Whether the name of [vm], read after [h], matches. *)
Definition matched {Match : Type} (Match_bool : Match -> bool) (self : Plugin)
    (matcher : string -> Match) (h : list call) (vm : IMachine) : bool :=
  Match_bool (matcher (machine_name (vbox_manager self) h vm)).

(** The text [startVm] logs before it starts. *)
Definition starting_message (self : Plugin) (vm : IMachine) (h : list call) : string :=
  "Starting VM " ++ machine_name (vbox_manager self) h vm ++ " "
    ++ machine_type (vbox_manager self) vm ++ "...".

(** [e] is raised on the path of [startVm] called after [h]: by the request
    for a session object, by the launch, or by the wait for its completion. *)
Definition start_failure (self : Plugin) (vm : IMachine) (h : list call) (e : exn) : Prop :=
  let vbox := vbox_manager self in
  let h1 := info (starting_message self vm h) :: h in
  sessionObject vbox h1 = inl e
  \/ (exists s,
        sessionObject vbox h1 = inr s
        /\ launched vbox (getSessionObject :: h1) vm s "gui" "" = inl e)
  \/ (exists s p,
        sessionObject vbox h1 = inr s
        /\ launched vbox (getSessionObject :: h1) vm s "gui" "" = inr p
        /\ raises vbox (launchVMProcess vm s "gui" "" :: getSessionObject :: h1)
                  (waitForCompletion p (-1)) = Some e).

(** ** Setting the plugin up: [__init__] and [installSDK] *)

Module Setup.

(** The exceptions of this part, by class.  [except ImportError] also
    catches the subclass [ModuleNotFoundError]. *)
Inductive error : Type :=
| NotImplementedError (msg : string)
| ImportError (msg : string)
| ModuleNotFoundError (msg : string)
| ValueError (msg : string)
| OtherError (class msg : string).

Definition is_ImportError (e : error) : bool :=
  match e with
  | ImportError _ | ModuleNotFoundError _ => true
  | _ => false
  end.

(** An absolute [pathlib.Path], as the list of its parts below the root. *)
Definition Path := list string.

(** [str(p)] *)
Definition path_str (p : Path) : string := "/" ++ String.concat "/" p.

(** [s.split('/')]: [acc] holds the characters since the last slash. *)
Fixpoint split_slash (acc s : string) : list string :=
  match s with
  | EmptyString => [acc]
  | String c s' =>
      if Ascii.eqb c "/" then acc :: split_slash "" s'
      else split_slash (acc ++ String c "") s'
  end.

(** [os.path.basename(s)]: what follows the last slash. *)
Definition basename (s : string) : string := last (split_slash "" s) ""%string.

(** The parts a string contributes to a path: empty parts and "." are
    dropped. *)
Definition parts_of (s : string) : list string :=
  filter (fun part => negb ((part =? "") || (part =? "."))%string) (split_slash "" s).

(** [p / s]: an absolute [s] replaces [p]. *)
Definition joinpath (p : Path) (s : string) : Path :=
  if String.prefix "/" s then parts_of s else p ++ parts_of s.

(** [p.parent]: the root is its own parent. *)
Definition parent (p : Path) : Path := removelast p.

(** [s.lower()] on the ASCII letters. *)
Definition lower_ascii (c : ascii) : ascii :=
  let n := nat_of_ascii c in
  if (65 <=? n)%nat && (n <=? 90)%nat then ascii_of_nat (n + 32) else c.

Fixpoint lower (s : string) : string :=
  match s with
  | EmptyString => EmptyString
  | String c s' => String (lower_ascii c) (lower s')
  end.

(** The calls of this part that leave the plugin. *)
Inductive event : Type :=
| import_vboxapi
| mkdir (p : Path)                                  (* p.mkdir(parents=True) *)
| urlretrieve (url : string) (filename : Path)
| open_rb (filename : Path)                         (* open(filename, "rb") *)
| ZipFile (filename : Path)                         (* zipfile.ZipFile(filename, 'r') *)
| extractall (filename dest : Path)
| subprocess_run (args : list string)               (* subprocess.run(args, check=True) *)
| rmtree (p : Path)
| info (msg : string)
| VirtualBoxManager_new                             (* vboxapi.VirtualBoxManager(None, None) *)
| getVirtualBox.

(** The machine the plugin is loaded on: for each call, whether it raises
    after the history [h] (newest first); what a file holds when it is read;
    the digest object of [hashlib.sha256]; the manager object the SDK gives. *)
Record Host : Type := {
  platform : string;
  cacheLocation : Path;
  dataLocation : Path;
  raises : list event -> event -> option error;
  file_content : list event -> Path -> list byte;
  sha256_state : Type;
  sha256_new : sha256_state;
  sha256_update : sha256_state -> list byte -> sha256_state;
  sha256_hexdigest : sha256_state -> string;
  manager : VirtualBoxManager
}.

(** *** Computations over these calls *)

Inductive result (A : Type) : Type :=
| Returns (a : A)
| Raises (e : error).
Arguments Returns {A} a.
Arguments Raises {A} e.

Definition IO (A : Type) : Type := list event -> result A * list event.

Definition ret {A} (a : A) : IO A := fun _ => (Returns a, []).

Definition raise {A} (e : error) : IO A := fun _ => (Raises e, []).

Definition bind {A B} (m : IO A) (f : A -> IO B) : IO B :=
  fun h =>
    match m h with
    | (Returns a, es) => let (r, es') := f a (es ++ h) in (r, es' ++ es)
    | (Raises e, es) => (Raises e, es)
    end.

(** [try: body except C: handler], for the class [C] recognised by
    [catches]; any other error passes through. *)
Definition try_except {A} (catches : error -> bool) (body : IO A) (handler : IO A) : IO A :=
  fun h =>
    match body h with
    | (Returns a, es) => (Returns a, es)
    | (Raises e, es) =>
        if catches e then let (r, es') := handler (es ++ h) in (r, es' ++ es)
        else (Raises e, es)
    end.

(** [try: body finally: final] *)
Definition try_finally {A} (body : IO A) (final : IO unit) : IO A :=
  fun h =>
    let (r, es) := body h in
    match final (es ++ h) with
    | (Returns _, es') => (r, es' ++ es)
    | (Raises e', es') => (Raises e', es' ++ es)
    end.

Definition perform (host : Host) (c : event) : IO unit :=
  fun h => (match raises host h c with Some e => Raises e | None => Returns tt end, [c]).

Definition read {A} (f : list event -> A) : IO A := fun h => (Returns (f h), []).

Definition log (c : event) : IO unit := fun _ => (Returns tt, [c]).

Declare Scope io_scope.
Delimit Scope io_scope with io.
Notation "x <- m ;; k" := (bind m (fun x => k))
  (at level 61, m at next level, right associativity) : io_scope.
Notation "m ;;; k" := (bind m (fun _ => k))
  (at level 61, right associativity) : io_scope.
Local Open Scope io_scope.

(** *** installSDK *)

(** A value together with the fact that it is the one inspected. *)
Definition inspect {A : Type} (x : A) : { y : A | x = y } := exist _ x eq_refl.

(** [iter(lambda: f.read(n), b"")] on a file that holds [data]: the blocks
    of at most [n] bytes read one after the other, up to the first empty
    one. *)
Equations? read_blocks (n : nat) (data : list byte) : list (list byte)
  by wf (List.length data) lt :=
  read_blocks n data with inspect (firstn n data) := {
    | exist _ [] _ => []
    | exist _ (b :: block) E => (b :: block) :: read_blocks n (skipn n data) }.
Proof.
  destruct n as [|n]; [discriminate E|].
  destruct data as [|d data]; [discriminate E|].
  cbn [skipn List.length]. pose proof (length_skipn n data). lia.
Qed.

Definition url : string :=
  "https://download.virtualbox.org/virtualbox/7.0.26/VirtualBoxSDK-7.0.26-168464.zip".

Definition sha_expected : string :=
  "504a5a7ea468ad1d19041379c8204287c73eb18926b51d51f269269dbcde9b96".

(** The digest of the file [filename], hashed block by block. *)
Definition sha_actual (host : Host) (data : list byte) : string :=
  let sha256 := sha256_new host in
  let sha256 := fold_left (sha256_update host) (read_blocks (Z.to_nat 8192) data) sha256 in
  sha256_hexdigest host sha256.

Definition newline : string := String (ascii_of_nat 10) "".
Definition quote : string := String (ascii_of_nat 34) "".

(** The f-string [script], line by line. *)
Definition script (host : Host) (cache_location : Path) (VBOX_INSTALL_PATH : string)
    : string :=
  newline
  ++ "                source " ++ quote ++ path_str (parent (dataLocation host))
  ++ "/python/venv/bin/activate" ++ quote ++ newline
  ++ "                pip install setuptools" ++ newline
  ++ "                cd " ++ quote ++ path_str (joinpath cache_location "sdk/installer")
  ++ quote ++ newline
  ++ "                VBOX_INSTALL_PATH=" ++ quote ++ VBOX_INSTALL_PATH ++ quote
  ++ " python vboxapisetup.py install" ++ newline
  ++ "            ".

(** The body of the [try] block of [installSDK]. *)
Definition installSDK_try (host : Host) (cache_location : Path) : IO unit :=
  let filename := joinpath cache_location (basename url) in
  log (info "Downloading SDK ...") ;;;
  perform host (urlretrieve url filename) ;;;
  perform host (open_rb filename) ;;;
  data <- read (fun h => file_content host h filename) ;;
  let sha_actual := sha_actual host data in
  (if negb (lower sha_actual =? lower sha_expected)%string
   then raise (ValueError "Downloaded file failed integrity check.")
   else ret tt) ;;;
  log (info "Extracting SDK ...") ;;;
  perform host (ZipFile filename) ;;;
  perform host (extractall filename cache_location) ;;;
  log (info "Installing SDK ...") ;;;
  VBOX_INSTALL_PATH <-
    (if (platform host =? "darwin")%string
     then ret "/Applications/VirtualBox.app/Contents/MacOS/"%string
     else if (platform host =? "linux")%string
     then ret "/usr/lib/virtualbox"%string
     else raise (NotImplementedError "Unhandled platform. See README.")) ;;
  perform host (subprocess_run ["sh"; "-c"; script host cache_location VBOX_INSTALL_PATH]%string).

Definition installSDK (host : Host) : IO unit :=
  let cache_location := cacheLocation host in
  perform host (mkdir cache_location) ;;;
  try_finally (installSDK_try host cache_location)
              (perform host (rmtree cache_location)).

(** *** __init__ *)

(** [import vboxapi], installing the SDK when the module is missing. *)
Definition import_or_install (host : Host) : IO unit :=
  try_except is_ImportError
    (perform host import_vboxapi)
    (installSDK host ;;;
     try_except is_ImportError
       (perform host import_vboxapi)
       (raise (ImportError
                 "Failed to import vboxapi despite successful SDK installation."))).

Definition __init__ (host : Host) : IO Plugin :=
  icon_factory <-
    (if (platform host =? "darwin")%string
     then ret (Icon_fileType "/Applications/VirtualBox.app")
     else if (platform host =? "linux")%string
     then ret (Icon_theme "virtualbox")
     else raise (NotImplementedError "Unhandled platform. Port me!")) ;;
  import_or_install host ;;;
  perform host VirtualBoxManager_new ;;;
  perform host getVirtualBox ;;;
  ret {| icon_factory := icon_factory; vbox_manager := manager host |}.

(** The platforms [__init__] knows. *)
Definition supported (host : Host) : Prop :=
  platform host = "darwin"%string \/ platform host = "linux"%string.

(** *** Other methods *)

Definition defaultTrigger : string := "vbox ".

(** *** A concrete host, for running the set-up *)

(** A digest object that keeps the bytes it was given; its digest is the
    expected one exactly for the three-byte files. *)
Definition demo_hexdigest (st : list byte) : string :=
  if (List.length st =? 3)%nat then sha_expected else "00"%string.

(** A host on [platform] where the call [c] raises after [h] exactly when
    [fails h c] says so, and every file read holds [content]. *)
Definition demo_host (platform : string) (fails : list event -> event -> option error)
    (content : list byte) : Host :=
  {| platform := platform;
     cacheLocation := ["home"; "user"; ".cache"; "albert"; "virtualbox"]%string;
     dataLocation := ["home"; "user"; ".local"; "share"; "albert"; "virtualbox"]%string;
     raises := fails;
     file_content := fun _ _ => content;
     sha256_state := list byte;
     sha256_new := [];
     sha256_update := @app byte;
     sha256_hexdigest := demo_hexdigest;
     manager := service some_states no_failure |}.

Definition nothing_fails (h : list event) (c : event) : option error := None.

Definition is_subprocess_run (c : event) : bool :=
  match c with subprocess_run _ => true | _ => false end.

(** The module is missing until the install script has run. *)
Definition module_missing_until_installed (h : list event) (c : event) : option error :=
  match c with
  | import_vboxapi =>
      if existsb is_subprocess_run h then None
      else Some (ModuleNotFoundError "No module named 'vboxapi'")
  | _ => None
  end.



Definition mkdir_fails (h : list event) (c : event) : option error :=
  match c with
  | mkdir _ => Some (OtherError "FileExistsError" "File exists")
  | _ => None
  end.

Definition download_fails (h : list event) (c : event) : option error :=
  match c with
  | urlretrieve _ _ => Some (OtherError "URLError" "unreachable")
  | _ => None
  end.

(** The module is missing and the download fails. *)
Definition missing_and_offline (h : list event) (c : event) : option error :=
  match c with
  | import_vboxapi => Some (ModuleNotFoundError "No module named 'vboxapi'")
  | urlretrieve _ _ => Some (OtherError "URLError" "unreachable")
  | _ => None
  end.

Definition rmtree_fails (h : list event) (c : event) : option error :=
  match c with
  | rmtree _ => Some (OtherError "PermissionError" "denied")
  | _ => None
  end.

Definition good_file : list byte := [x50; x4b; x03].
Definition bad_file : list byte := [x50; x4b].

(** *** Counting events *)

Definition count (p : event -> bool) (es : list event) : nat := List.length (filter p es).

Definition is_rmtree (c : event) : bool :=
  match c with rmtree _ => true | _ => false end.

Definition is_import (c : event) : bool :=
  match c with import_vboxapi => true | _ => false end.

Definition is_mkdir (c : event) : bool :=
  match c with mkdir _ => true | _ => false end.

(** The calls that unpack or run what was downloaded. *)
Definition uses_download (c : event) : bool :=
  match c with
  | ZipFile _ | extractall _ _ | subprocess_run _ => true
  | _ => false
  end.

(** The calls [installSDK] makes and [__init__] itself does not. *)
Definition is_install_step (c : event) : bool :=
  match c with
  | mkdir _ | urlretrieve _ _ | open_rb _ | ZipFile _ | extractall _ _
  | subprocess_run _ | rmtree _ | info _ => true
  | _ => false
  end.

End Setup.

(** * Properties *)

(** ** Counting *)

Lemma count_app (p : call -> bool) (es es' : list call) :
  count p (es ++ es') = (count p es + count p es')%nat.
Proof.
  unfold count. rewrite filter_app. apply length_app.
Qed.

Lemma count_cons (p : call -> bool) (c : call) (es : list call) :
  count p (c :: es) = ((if p c then 1 else 0) + count p es)%nat.
Proof.
  unfold count. simpl. destruct (p c); reflexivity.
Qed.

(** ** The session guard *)

Section Guard.

Context {A : Type} (self : Plugin) (vm : IMachine) (body : ISession -> M A).

(** No session object: nothing else is called. *)
Lemma sharedLockedSession_no_session (h : list call) (e : exn) :
  sessionObject (vbox_manager self) h = inl e ->
  sharedLockedSession self vm body h = (Raise e, [getSessionObject]).
Proof.
  intros Hs. unfold sharedLockedSession, bind, ask. rewrite Hs. reflexivity.
Qed.

(** The lock raises: the [finally] block still runs, the body does not. *)
Lemma sharedLockedSession_lock_raises (h : list call) (s : ISession) (e : exn) :
  let vbox := vbox_manager self in
  let lock := lockMachine vm s (LockType_Shared (vbox_constants self)) in
  sessionObject vbox h = inr s ->
  raises vbox (getSessionObject :: h) lock = Some e ->
  sharedLockedSession self vm body h =
    (match raises vbox (lock :: getSessionObject :: h) (unlockMachine s) with
     | None => Raise e
     | Some e' => Raise e'
     end,
     [unlockMachine s; lock; getSessionObject]).
Proof.
  intros vbox lock Hs Hl.
  unfold sharedLockedSession, bind, ask, try_finally, perform.
  fold vbox. rewrite Hs. cbn. fold lock. rewrite Hl. cbn.
  destruct (raises vbox _ (unlockMachine s)); reflexivity.
Qed.

(** The lock is taken: the body runs, then the [finally] block. *)
Lemma sharedLockedSession_locked (h : list call) (s : ISession) :
  let vbox := vbox_manager self in
  let lock := lockMachine vm s (LockType_Shared (vbox_constants self)) in
  let ran := body s (lock :: getSessionObject :: h) in
  sessionObject vbox h = inr s ->
  raises vbox (getSessionObject :: h) lock = None ->
  sharedLockedSession self vm body h =
    (match raises vbox (snd ran ++ lock :: getSessionObject :: h) (unlockMachine s) with
     | None => fst ran
     | Some e' => Raise e'
     end,
     unlockMachine s :: snd ran ++ [lock; getSessionObject]).
Proof.
  intros vbox lock ran Hs Hl.
  unfold sharedLockedSession, bind, ask, try_finally, perform.
  fold vbox. rewrite Hs. cbn. fold lock. rewrite Hl. cbn. fold ran.
  destruct ran as [r es]. cbn.
  rewrite <- app_assoc. cbn.
  destruct (raises vbox _ (unlockMachine s)); cbn; rewrite <- app_assoc; reflexivity.
Qed.

End Guard.

(** C2. When the session object is obtained and the lock is taken, the
    guard's calls are, in order: [getSessionObject] once, [lockMachine] once,
    the calls of the guarded body, and [unlockMachine] once as the last call
    before the guard returns or raises, whatever the outcome of the body.
    Beyond what the body calls itself, there is exactly one unlock, one
    lock and one request for a session object. *)
Theorem sharedLockedSession_unlocks_once
    (A : Type) (self : Plugin) (vm : IMachine) (body : ISession -> M A)
    (h : list call) (s : ISession) :
  let vbox := vbox_manager self in
  let lock := lockMachine vm s (LockType_Shared (vbox_constants self)) in
  let body_events := snd (body s (lock :: getSessionObject :: h)) in
  let events := snd (sharedLockedSession self vm body h) in
  sessionObject vbox h = inr s ->
  raises vbox (getSessionObject :: h) lock = None ->
  events = unlockMachine s :: body_events ++ [lock; getSessionObject]
  /\ count is_unlock events = S (count is_unlock body_events)
  /\ count is_lock events = S (count is_lock body_events)
  /\ count is_getSession events = S (count is_getSession body_events).
Proof.
  intros vbox lock body_events events Hs Hl.
  assert (E : events = unlockMachine s :: body_events ++ [lock; getSessionObject]).
  { unfold events. rewrite (sharedLockedSession_locked self vm body h s Hs Hl). reflexivity. }
  rewrite E. split; [reflexivity|].
  rewrite !count_cons, !count_app. cbn. repeat split; lia.
Qed.

(** C3, as the code has it.  When [lockMachine] raises, the guarded body is
    not run and [unlockMachine] is still called, once: the [finally] block
    encloses the lock.  The guard raises the error of the lock when that
    unlock returns normally, and the error of the unlock when it raises. *)
Theorem sharedLockedSession_failed_lock
    (A : Type) (self : Plugin) (vm : IMachine) (body : ISession -> M A)
    (h : list call) (s : ISession) (e : exn) :
  let vbox := vbox_manager self in
  let lock := lockMachine vm s (LockType_Shared (vbox_constants self)) in
  sessionObject vbox h = inr s ->
  raises vbox (getSessionObject :: h) lock = Some e ->
  snd (sharedLockedSession self vm body h) = [unlockMachine s; lock; getSessionObject]
  /\ count is_unlock (snd (sharedLockedSession self vm body h)) = 1%nat
  /\ fst (sharedLockedSession self vm body h) =
       match raises vbox (lock :: getSessionObject :: h) (unlockMachine s) with
       | None => Raise e
       | Some e' => Raise e'
       end.
Proof.
  intros vbox lock Hs Hl.
  rewrite (sharedLockedSession_lock_raises self vm body h s e Hs Hl).
  repeat split.
Qed.

(** C6, as the code has it.  When the guarded body has returned normally and
    [unlockMachine] raises, the guard raises the error of the unlock in place
    of the result of the body, and logs nothing of its own. *)
Theorem sharedLockedSession_failed_unlock
    (A : Type) (self : Plugin) (vm : IMachine) (body : ISession -> M A)
    (h : list call) (s : ISession) (a : A) (body_events : list call) (e' : exn) :
  let vbox := vbox_manager self in
  let lock := lockMachine vm s (LockType_Shared (vbox_constants self)) in
  sessionObject vbox h = inr s ->
  raises vbox (getSessionObject :: h) lock = None ->
  body s (lock :: getSessionObject :: h) = (Return a, body_events) ->
  raises vbox (body_events ++ lock :: getSessionObject :: h) (unlockMachine s) = Some e' ->
  sharedLockedSession self vm body h =
    (Raise e', unlockMachine s :: body_events ++ [lock; getSessionObject])
  /\ count is_log (snd (sharedLockedSession self vm body h)) = count is_log body_events.
Proof.
  intros vbox lock Hs Hl Hb Hu.
  assert (E : sharedLockedSession self vm body h =
              (Raise e', unlockMachine s :: body_events ++ [lock; getSessionObject])).
  { rewrite (sharedLockedSession_locked self vm body h s Hs Hl).
    fold lock. rewrite Hb. cbn. fold vbox. rewrite Hu. reflexivity. }
  rewrite E. split; [reflexivity|]. cbn [snd].
  rewrite count_cons, count_app. unfold lock. cbn. lia.
Qed.

(** Each of the six actions is the guard around one call on the session. *)
Lemma kind_method_guarded (k : ActionKind) (self : Plugin) (vm : IMachine)
    (s0 : ISession) (c0 : call) :
  session_call k s0 = Some c0 ->
  exists f : ISession -> call,
    (forall s, session_call k s = Some (f s))
    /\ kind_method k self vm =
         sharedLockedSession self vm (fun s => perform (vbox_manager self) (f s)).
Proof.
  destruct k; cbn; intros H; try discriminate.
  - exists machine_discardSavedState. split; reflexivity.
  - exists console_saveState. split; reflexivity.
  - exists console_powerButton. split; reflexivity.
  - exists console_powerDown. split; reflexivity.
  - exists console_pause. split; reflexivity.
  - exists console_resume. split; reflexivity.
Qed.

(** What one of the six actions does once the lock is taken: its call, then
    the unlock; the error of the unlock, if any, is the one raised. *)
Lemma shared_action_run (k : ActionKind) (self : Plugin) (vm : IMachine)
    (h : list call) (s : ISession) (c : call) :
  let vbox := vbox_manager self in
  let lock := lockMachine vm s (LockType_Shared (vbox_constants self)) in
  session_call k s = Some c ->
  sessionObject vbox h = inr s ->
  raises vbox (getSessionObject :: h) lock = None ->
  kind_method k self vm h =
    (match raises vbox (c :: lock :: getSessionObject :: h) (unlockMachine s) with
     | Some e' => Raise e'
     | None =>
         match raises vbox (lock :: getSessionObject :: h) c with
         | Some e => Raise e
         | None => Return tt
         end
     end,
     [unlockMachine s; c; lock; getSessionObject]).
Proof.
  intros vbox lock Hk Hs Hl.
  destruct (kind_method_guarded k self vm s c Hk) as (f & Hf & ->).
  rewrite (sharedLockedSession_locked self vm _ h s Hs Hl).
  assert (c = f s) as -> by (specialize (Hf s); congruence).
  unfold perform. cbn. fold vbox lock.
  destruct (raises vbox (f s :: _) (unlockMachine s)); reflexivity.
Qed.


(** C2 on a run: the power button raises under the guard, the session is
    unlocked once. *)
Lemma sharedLockedSession_unlocks_once_run :
  let self := plugin some_states powerButton_fails in
  let events := snd (acpiPowerVm self 1%nat []) in
  events = [unlockMachine 0%nat; console_powerButton 0%nat;
            lockMachine 1%nat 0%nat 1; getSessionObject]
  /\ count is_unlock events = 1%nat
  /\ count is_lock events = 1%nat
  /\ count is_getSession events = 1%nat.
Proof.
  exact (sharedLockedSession_unlocks_once unit
           (plugin some_states powerButton_fails) 1%nat
           (fun s => perform (service some_states powerButton_fails) (console_powerButton s))
           [] 0%nat eq_refl eq_refl).
Defined.

(** C3 as stated fails: the lock of machine 1 raises, and the session is
    unlocked all the same. *)
Lemma failed_lock_still_unlocks :
  ~ failed_lock_skips_unlock (plugin some_states lock_fails) 1%nat
      (fun s => perform (service some_states lock_fails) (console_powerButton s)) [].
Proof.
  intros H.
  destruct (H 0%nat (Exception "machine is locked") eq_refl eq_refl) as [_ H0].
  vm_compute in H0. discriminate H0.
Qed.

(** C3 as amended, on that run. *)
Lemma sharedLockedSession_failed_lock_run :
  let self := plugin some_states lock_fails in
  snd (acpiPowerVm self 1%nat []) =
    [unlockMachine 0%nat; lockMachine 1%nat 0%nat 1; getSessionObject]
  /\ count is_unlock (snd (acpiPowerVm self 1%nat [])) = 1%nat
  /\ fst (acpiPowerVm self 1%nat []) = Raise (Exception "machine is locked").
Proof.
  exact (sharedLockedSession_failed_lock unit
           (plugin some_states lock_fails) 1%nat
           (fun s => perform (service some_states lock_fails) (console_powerButton s))
           [] 0%nat (Exception "machine is locked") eq_refl eq_refl).
Defined.

(** C6 as stated fails: the power button is pressed, the unlock raises, and
    the action raises that error. *)
Lemma failed_unlock_masks_success :
  ~ failed_unlock_keeps_success (plugin some_states unlock_fails) 1%nat
      (fun s => perform (service some_states unlock_fails) (console_powerButton s)) [].
Proof.
  intros H.
  destruct (H 0%nat tt [console_powerButton 0%nat] (Exception "session is not locked")
              eq_refl eq_refl eq_refl eq_refl) as [H0 _].
  vm_compute in H0. discriminate H0.
Qed.

(** C6 as amended, on that run. *)
Lemma sharedLockedSession_failed_unlock_run :
  let self := plugin some_states unlock_fails in
  acpiPowerVm self 1%nat [] =
    (Raise (Exception "session is not locked"),
     [unlockMachine 0%nat; console_powerButton 0%nat;
      lockMachine 1%nat 0%nat 1; getSessionObject])
  /\ count is_log (snd (acpiPowerVm self 1%nat [])) = 0%nat.
Proof.
  exact (sharedLockedSession_failed_unlock unit
           (plugin some_states unlock_fails) 1%nat
           (fun s => perform (service some_states unlock_fails) (console_powerButton s))
           [] 0%nat tt [console_powerButton 0%nat] (Exception "session is not locked")
           eq_refl eq_refl eq_refl eq_refl).
Defined.


(** When the call on the session and the unlock both raise, the error of
    the unlock is the one the action raises. *)
Example acpiPowerVm_both_raise :
  acpiPowerVm (plugin some_states powerButton_and_unlock_fail) 1%nat [] =
    (Raise (Exception "session is not locked"),
     [unlockMachine 0%nat; console_powerButton 0%nat;
      lockMachine 1%nat 0%nat 1; getSessionObject]).
Proof.
  rewrite (shared_action_run PowerButton _ 1%nat [] 0%nat (console_powerButton 0%nat));
    reflexivity.
Qed.

(** ** Starting a machine *)

(** The four ways [startVm] can run. *)
Lemma startVm_run (self : Plugin) (vm : IMachine) (h : list call) :
  let vbox := vbox_manager self in
  let started := info (starting_message self vm h) in
  startVm self vm h =
    match sessionObject vbox (started :: h) with
    | inl e => (Return tt, [warning (str e); getSessionObject; started])
    | inr s =>
        let launch := launchVMProcess vm s "gui" "" in
        match launched vbox (getSessionObject :: started :: h) vm s "gui" "" with
        | inl e => (Return tt, [warning (str e); launch; getSessionObject; started])
        | inr p =>
            let wait := waitForCompletion p (-1) in
            match raises vbox (launch :: getSessionObject :: started :: h) wait with
            | Some e =>
                (Return tt, [warning (str e); wait; launch; getSessionObject; started])
            | None => (Return tt, [wait; launch; getSessionObject; started])
            end
        end
    end.
Proof.
  intros vbox started.
  unfold startVm, try_except, startVm_try, bind, ask, perform, read, log, ret.
  cbn. fold vbox. change (info _) with started.
  destruct (sessionObject vbox (started :: h)) as [e|s]; cbn; [reflexivity|].
  destruct (launched vbox _ vm s "gui" "") as [e|p]; cbn; [reflexivity|].
  destruct (raises vbox _ (waitForCompletion p (-1))) as [e|]; reflexivity.
Qed.

(** C4. [startVm] returns normally on every run.  It logs at most one
    warning, and when the request for a session object, the launch or the
    wait raises [e], it logs exactly one: the text of [e], as its last act. *)
Theorem startVm_swallows_failures (self : Plugin) (vm : IMachine) (h : list call) :
  fst (startVm self vm h) = Return tt
  /\ (count is_warning (snd (startVm self vm h)) <= 1)%nat
  /\ forall e, start_failure self vm h e ->
       count is_warning (snd (startVm self vm h)) = 1%nat
       /\ hd_error (snd (startVm self vm h)) = Some (warning (str e)).
Proof.
  rewrite startVm_run. unfold start_failure. cbn zeta.
  set (vbox := vbox_manager self).
  set (started := info (starting_message self vm h)).
  destruct (sessionObject vbox (started :: h)) as [e0|s].
  { repeat split; cbn; try lia;
      destruct H as [H|[(s & H & _)|(s & p & H & _)]]; congruence. }
  destruct (launched vbox _ vm s "gui" "") as [e0|p] eqn:El.
  { repeat split; cbn; try lia;
      destruct H as [H|[(s' & H & H')|(s' & p & H & H' & _)]]; congruence. }
  destruct (raises vbox _ (waitForCompletion p (-1))) as [e0|] eqn:Ew.
  { repeat split; cbn; try lia;
      destruct H as [H|[(s' & H & H')|(s' & p' & H & H' & H'')]]; congruence. }
  repeat split; cbn; try lia;
    destruct H as [H|[(s' & H & H')|(s' & p' & H & H' & H'')]]; congruence.
Qed.

(** C9. Once the session object is obtained and the launch has returned the
    progress object [p], the next call of [startVm] is
    [p.waitForCompletion(-1)], and [startVm] returns only after that call has
    returned or raised (its error then being logged). *)
Theorem startVm_waits_without_timeout
    (self : Plugin) (vm : IMachine) (h : list call) (s : ISession) (p : IProgress) :
  let vbox := vbox_manager self in
  let started := info (starting_message self vm h) in
  let launch := launchVMProcess vm s "gui" "" in
  sessionObject vbox (started :: h) = inr s ->
  launched vbox (getSessionObject :: started :: h) vm s "gui" "" = inr p ->
  startVm self vm h =
    (Return tt,
     match raises vbox (launch :: getSessionObject :: started :: h)
                  (waitForCompletion p (-1)) with
     | Some e => [warning (str e)]
     | None => []
     end ++ [waitForCompletion p (-1); launch; getSessionObject; started]).
Proof.
  intros vbox started launch Hs Hl.
  rewrite startVm_run. cbn zeta. fold vbox started. rewrite Hs, Hl. fold launch.
  destruct (raises vbox _ (waitForCompletion p (-1))); reflexivity.
Qed.

(** ** Building an item *)

(** [buildItem] only reads attributes: it makes no call and cannot fail. *)
Lemma buildItem_run (self : Plugin) (vm : IMachine) (h : list call) :
  let vbox := vbox_manager self in
  buildItem self vm h =
    (Return {| item_id := machine_id vbox h vm;
               item_text := machine_name vbox h vm;
               item_subtext := getEnumValueName vbox "MachineState" (machine_state vbox h vm);
               item_input_action_text := machine_name vbox h vm;
               item_icon_factory := icon_factory self;
               item_actions := buildItem_actions self vm (machine_state vbox h vm) |},
     []).
Proof.
  reflexivity.
Qed.

Lemma distinct_states_neq (c : Constants) :
  distinct_states c ->
  MachineState_PoweredOff c <> MachineState_Aborted c
  /\ MachineState_PoweredOff c <> MachineState_Saved c
  /\ MachineState_PoweredOff c <> MachineState_Running c
  /\ MachineState_PoweredOff c <> MachineState_Paused c
  /\ MachineState_Aborted c <> MachineState_Saved c
  /\ MachineState_Aborted c <> MachineState_Running c
  /\ MachineState_Aborted c <> MachineState_Paused c
  /\ MachineState_Saved c <> MachineState_Running c
  /\ MachineState_Saved c <> MachineState_Paused c
  /\ MachineState_Running c <> MachineState_Paused c.
Proof.
  unfold distinct_states. intros Hd.
  repeat match goal with
         | H : NoDup (_ :: _) |- _ => apply NoDup_cons_iff in H; destruct H as [? H]
         end.
  cbn in *. intuition congruence.
Qed.

(** The four [if] statements of [buildItem] compute the table row of the
    state, bound to the methods of the plugin. *)
Lemma buildItem_actions_table (self : Plugin) (vm : IMachine) (state : Z) :
  distinct_states (vbox_constants self) ->
  buildItem_actions self vm state =
    map (bound_action self vm) (legalActions (vbox_constants self) state).
Proof.
  intros Hd. apply distinct_states_neq in Hd.
  unfold buildItem_actions, legalActions, in_list, extend_if. cbn [existsb].
  set (c := vbox_constants self) in *.
  destruct (Z.eqb_spec state (MachineState_PoweredOff c));
    destruct (Z.eqb_spec state (MachineState_Aborted c));
    destruct (Z.eqb_spec state (MachineState_Saved c));
    destruct (Z.eqb_spec state (MachineState_Running c));
    destruct (Z.eqb_spec state (MachineState_Paused c));
    subst; cbn; try reflexivity; exfalso; intuition congruence.
Qed.

(** A state outside the five named ones gets no action, whatever the codes. *)
Lemma buildItem_actions_other (self : Plugin) (vm : IMachine) (state : Z) :
  let c := vbox_constants self in
  ~ In state [MachineState_PoweredOff c; MachineState_Aborted c; MachineState_Saved c;
              MachineState_Running c; MachineState_Paused c] ->
  buildItem_actions self vm state = [].
Proof.
  intros c Hn. cbn in Hn.
  unfold buildItem_actions, in_list, extend_if. cbn [existsb]. fold c.
  destruct (Z.eqb_spec state (MachineState_PoweredOff c));
    destruct (Z.eqb_spec state (MachineState_Aborted c));
    destruct (Z.eqb_spec state (MachineState_Saved c));
    destruct (Z.eqb_spec state (MachineState_Running c));
    destruct (Z.eqb_spec state (MachineState_Paused c));
    subst; cbn; try reflexivity; exfalso; intuition congruence.
Qed.

(** The rows of the table, for pairwise different codes. *)
Lemma legalActions_rows (c : Constants) :
  distinct_states c ->
  legalActions c (MachineState_PoweredOff c) = [Start]
  /\ legalActions c (MachineState_Aborted c) = [Start]
  /\ legalActions c (MachineState_Saved c) = [RestoreSaved; DiscardSaved]
  /\ legalActions c (MachineState_Running c) = [Save; PowerButton; PowerDown; Pause]
  /\ legalActions c (MachineState_Paused c) = [Resume]
  /\ forall other,
       ~ In other [MachineState_PoweredOff c; MachineState_Aborted c; MachineState_Saved c;
                   MachineState_Running c; MachineState_Paused c] ->
       legalActions c other = [].
Proof.
  intros Hd.
  pose proof (distinct_states_neq c Hd) as Hn.
  unfold legalActions. rewrite !Z.eqb_refl.
  repeat split.
  - rewrite orb_true_r. reflexivity.
  - destruct (Z.eqb_spec (MachineState_Saved c) (MachineState_PoweredOff c));
      destruct (Z.eqb_spec (MachineState_Saved c) (MachineState_Aborted c));
      cbn; try reflexivity; exfalso; intuition congruence.
  - destruct (Z.eqb_spec (MachineState_Running c) (MachineState_PoweredOff c));
      destruct (Z.eqb_spec (MachineState_Running c) (MachineState_Aborted c));
      destruct (Z.eqb_spec (MachineState_Running c) (MachineState_Saved c));
      cbn; try reflexivity; exfalso; intuition congruence.
  - destruct (Z.eqb_spec (MachineState_Paused c) (MachineState_PoweredOff c));
      destruct (Z.eqb_spec (MachineState_Paused c) (MachineState_Aborted c));
      destruct (Z.eqb_spec (MachineState_Paused c) (MachineState_Saved c));
      destruct (Z.eqb_spec (MachineState_Paused c) (MachineState_Running c));
      cbn; try reflexivity; exfalso; intuition congruence.
  - intros other Ho. cbn in Ho.
    destruct (Z.eqb_spec other (MachineState_PoweredOff c));
      destruct (Z.eqb_spec other (MachineState_Aborted c));
      destruct (Z.eqb_spec other (MachineState_Saved c));
      destruct (Z.eqb_spec other (MachineState_Running c));
      destruct (Z.eqb_spec other (MachineState_Paused c));
      cbn; try reflexivity; exfalso; intuition congruence.
Qed.

(** C1. [buildItem] makes no call and returns an item whose actions are the
    row of the table for the state of the machine, in the order of the table,
    each bound to its method: [Start] for PoweredOff and Aborted,
    [RestoreSaved; DiscardSaved] for Saved, [Save; PowerButton; PowerDown;
    Pause] for Running, [Resume] for Paused, nothing for any other state.
    The actions depend on the state alone: two calls that read the same
    state give the same actions. *)
Theorem buildItem_actions_follow_table (self : Plugin) (vm : IMachine) (h : list call) :
  let vbox := vbox_manager self in
  let c := vbox_constants self in
  let state := machine_state vbox h vm in
  distinct_states c ->
  (exists item,
     buildItem self vm h = (Return item, [])
     /\ item_actions item = map (bound_action self vm) (legalActions c state)
     /\ forall h' : list call,
          machine_state vbox h' vm = state ->
          exists item',
            buildItem self vm h' = (Return item', [])
            /\ item_actions item' = item_actions item)
  /\ legalActions c (MachineState_PoweredOff c) = [Start]
  /\ legalActions c (MachineState_Aborted c) = [Start]
  /\ legalActions c (MachineState_Saved c) = [RestoreSaved; DiscardSaved]
  /\ legalActions c (MachineState_Running c) = [Save; PowerButton; PowerDown; Pause]
  /\ legalActions c (MachineState_Paused c) = [Resume]
  /\ forall other,
       ~ In other [MachineState_PoweredOff c; MachineState_Aborted c; MachineState_Saved c;
                   MachineState_Running c; MachineState_Paused c] ->
       legalActions c other = [].
Proof.
  intros vbox c state Hd. split.
  - eexists. split; [apply buildItem_run|]. cbn [item_actions]. fold vbox state.
    split; [apply buildItem_actions_table; exact Hd|].
    intros h' Hh'. eexists. split; [apply buildItem_run|].
    cbn [item_actions]. fold vbox. rewrite Hh'. reflexivity.
  - apply legalActions_rows. exact Hd.
Qed.



(** ** The query handler *)

(** Lists related pointwise: each element on the left has its partner. *)
Lemma Forall2_In_left {X Y : Type} (R : X -> Y -> Prop) (xs : list X) (ys : list Y) (x : X) :
  Forall2 R xs ys -> In x xs -> exists y, In y ys /\ R x y.
Proof.
  induction 1 as [|x' y' xs' ys' Hxy _ IH]; intros Hin.
  - destruct Hin.
  - destruct Hin as [->|Hin].
    + exists y'. split; [left; reflexivity|exact Hxy].
    + destruct (IH Hin) as (y & Hy & HR). exists y. split; [right; exact Hy|exact HR].
Qed.

Section QueryProperties.

Context (Match : Type) (Match_bool : Match -> bool)
        (Matcher_match : string -> string -> Match).
Context (self : Plugin).

(** The loop makes no call; it appends one entry per matched machine, in the
    order of the machines, and skips the others. *)
Lemma handleGlobalQuery_loop (matcher : string -> Match) (h : list call)
    (vms : list IMachine) :
  forall items,
  exists new,
    for_each vms (handleGlobalQuery_vm Match Match_bool self matcher) items h
      = (Return (items ++ new), [])
    /\ Forall2 (entry_of self matcher h) (filter (matched Match_bool self matcher h) vms) new.
Proof.
  induction vms as [|vm vms IH]; intros items.
  - exists []. cbn. rewrite app_nil_r. split; [reflexivity|constructor].
  - cbn [for_each filter]. unfold matched at 1.
    unfold bind at 1. unfold handleGlobalQuery_vm at 1.
    unfold bind at 1, read at 1. cbn [app].
    destruct (Match_bool (matcher (machine_name (vbox_manager self) h vm))) eqn:Hm.
    + unfold bind at 1. rewrite buildItem_run. cbn [app]. unfold ret at 1.
      set (r := {| rank_item := _; rank_match := _ |}).
      destruct (IH (items ++ [r])) as (new & Hrun & Hall).
      exists (r :: new). cbn [app]. rewrite Hrun, <- app_assoc. cbn [app].
      split; [reflexivity|].
      constructor; [|exact Hall].
      split; [apply buildItem_run|reflexivity].
    + unfold ret at 1.
      destruct (IH items) as (new & Hrun & Hall).
      exists new. cbn [app]. rewrite Hrun. split; [reflexivity|exact Hall].
Qed.

(** The whole handler: one enumeration, then the loop. *)
Lemma handleGlobalQuery_run (query : Query) (h : list call) :
  let matcher := Matcher_match (query_string query) in
  let h' := getArray_machines :: h in
  snd (handleGlobalQuery Match Match_bool Matcher_match self query h) = [getArray_machines]
  /\ match machines (vbox_manager self) h with
     | inl e =>
         fst (handleGlobalQuery Match Match_bool Matcher_match self query h) = Raise e
     | inr vms =>
         exists items,
           fst (handleGlobalQuery Match Match_bool Matcher_match self query h) = Return items
           /\ Forall2 (entry_of self matcher h') (filter (matched Match_bool self matcher h') vms) items
     end.
Proof.
  intros matcher h'.
  unfold handleGlobalQuery, bind, ask. fold matcher.
  destruct (machines (vbox_manager self) h) as [e|vms]; [split; reflexivity|].
  cbn [app]. fold h'.
  destruct (handleGlobalQuery_loop matcher h' vms []) as (new & Hrun & Hall).
  rewrite Hrun. cbn. split; [reflexivity|].
  exists new. split; [reflexivity|exact Hall].
Qed.

(** C8. After any history, the handler asks for the machines exactly once
    and makes no other call.  When that enumeration answers, the result lists
    exactly the machines whose name the matcher accepts, in the order of the
    enumeration: one entry each, made of the item [buildItem] builds for the
    machine and of its match; machines the matcher rejects have no entry.
    When the enumeration raises, the handler raises the same error. *)
Theorem handleGlobalQuery_filters_machines (query : Query) (h : list call) :
  let matcher := Matcher_match (query_string query) in
  let h' := getArray_machines :: h in
  let run := handleGlobalQuery Match Match_bool Matcher_match self query h in
  snd run = [getArray_machines]
  /\ count is_enumeration (snd run) = 1%nat
  /\ match machines (vbox_manager self) h with
     | inl e => fst run = Raise e
     | inr vms =>
         exists items,
           fst run = Return items
           /\ Forall2 (entry_of self matcher h')
                      (filter (matched Match_bool self matcher h') vms) items
     end.
Proof.
  intros matcher h' run.
  destruct (handleGlobalQuery_run query h) as [Hev Hres].
  fold run in Hev, Hres. rewrite Hev.
  split; [reflexivity|]. split; [reflexivity|]. exact Hres.
Qed.

(** C10. A machine of the inventory whose name matches and whose state is
    none of the five named ones still has its entry in the result: an item
    with the id and the name of the machine and an empty list of actions. *)
Theorem handleGlobalQuery_keeps_actionless_machine
    (query : Query) (h : list call) (vms : list IMachine) (vm : IMachine) :
  let c := vbox_constants self in
  let h' := getArray_machines :: h in
  machines (vbox_manager self) h = inr vms ->
  In vm vms ->
  Match_bool (Matcher_match (query_string query) (machine_name (vbox_manager self) h' vm)) = true ->
  ~ In (machine_state (vbox_manager self) h' vm)
       [MachineState_PoweredOff c; MachineState_Aborted c; MachineState_Saved c;
        MachineState_Running c; MachineState_Paused c] ->
  exists items r,
    fst (handleGlobalQuery Match Match_bool Matcher_match self query h) = Return items
    /\ In r items
    /\ buildItem self vm h' = (Return (rank_item r), [])
    /\ item_actions (rank_item r) = []
    /\ item_id (rank_item r) = machine_id (vbox_manager self) h' vm
    /\ item_text (rank_item r) = machine_name (vbox_manager self) h' vm.
Proof.
  intros c h' Hvms Hin Hm Hstate.
  destruct (handleGlobalQuery_run query h) as [_ Hres].
  rewrite Hvms in Hres.
  destruct Hres as (items & Hret & Hall). fold h' in Hall.
  assert (Hf : In vm (filter (matched Match_bool self (Matcher_match (query_string query)) h') vms)).
  { apply filter_In. split; [exact Hin|exact Hm]. }
  destruct (Forall2_In_left _ _ _ _ Hall Hf) as (r & Hr & Hb & _).
  exists items, r. split; [exact Hret|]. split; [exact Hr|]. split; [exact Hb|].
  rewrite buildItem_run in Hb. injection Hb as Hb. rewrite <- Hb. cbn.
  repeat split. apply buildItem_actions_other. exact Hstate.
Qed.

End QueryProperties.

(** ** Runs on the concrete service *)

Lemma sdk7_distinct : distinct_states sdk7.
Proof.
  unfold distinct_states, sdk7. cbn.
  repeat (constructor; [cbn; intuition discriminate|]). constructor.
Qed.

(** C1 on a run: a running machine gets the four actions of its row. *)
Lemma buildItem_actions_follow_table_run :
  exists item,
    buildItem (plugin some_states no_failure) 1%nat [] = (Return item, [])
    /\ map action_id (item_actions item)
       = ["savevm"; "poweroffvm"; "stopvm"; "pausevm"]%string.
Proof.
  destruct (buildItem_actions_follow_table (plugin some_states no_failure) 1%nat []
              sdk7_distinct) as [(item & Hb & Ha & _) _].
  exists item. split; [exact Hb|]. rewrite Ha. reflexivity.
Defined.

(** C4 on a run: the wait raises, one warning is logged, the call returns. *)
Lemma startVm_swallows_failures_run :
  let run := startVm (plugin some_states wait_fails) 0%nat [] in
  fst run = Return tt
  /\ count is_warning (snd run) = 1%nat
  /\ hd_error (snd run) = Some (warning "launch failed").
Proof.
  destruct (startVm_swallows_failures (plugin some_states wait_fails) 0%nat [])
    as (Hret & _ & Hwarn).
  split; [exact Hret|].
  apply (Hwarn (Exception "launch failed")).
  right. right. exists 0%nat, 0%nat. repeat split.
Defined.

(** C9 on a run. *)
Lemma startVm_waits_without_timeout_run :
  startVm (plugin some_states wait_fails) 0%nat [] =
    (Return tt,
     [warning "launch failed"; waitForCompletion 0%nat (-1);
      launchVMProcess 0%nat 0%nat "gui" ""; getSessionObject;
      info "Starting VM work-vm IMachine..."]).
Proof.
  exact (startVm_waits_without_timeout (plugin some_states wait_fails) 0%nat []
           0%nat 0%nat eq_refl eq_refl).
Defined.


(** The example of the specification: of "work-vm", "test-vm" and
    "build-box", the query "vm" keeps the first two, with one enumeration. *)
Example handleGlobalQuery_vm_query :
  let run := handleGlobalQuery bool (fun b => b) contains
               (plugin some_states no_failure) {| query_string := "vm" |} [] in
  match fst run with
  | Return items => map (fun r => item_text (rank_item r)) items
  | Raise _ => []
  end = ["work-vm"; "test-vm"]%string
  /\ snd run = [getArray_machines].
Proof.
  vm_compute. split; reflexivity.
Qed.

(** C10 on a run: "build-box" is in a transitional state and matches "box". *)
Lemma handleGlobalQuery_keeps_actionless_machine_run :
  exists items r,
    fst (handleGlobalQuery bool (fun b => b) contains
           (plugin some_states no_failure) {| query_string := "box" |} []) = Return items
    /\ In r items
    /\ item_actions (rank_item r) = []
    /\ item_id (rank_item r) = "id-build"%string
    /\ item_text (rank_item r) = "build-box"%string.
Proof.
  assert (Hother : ~ In 10 [1; 4; 2; 6; 7]).
  { cbn. intuition discriminate. }
  destruct (handleGlobalQuery_keeps_actionless_machine bool (fun b => b) contains
              (plugin some_states no_failure) {| query_string := "box" |} []
              [0; 1; 2]%nat 2%nat eq_refl (or_intror (or_intror (or_introl eq_refl)))
              eq_refl Hother)
    as (items & r & Hret & Hin & _ & Hact & Hid & Htext).
  exists items, r. repeat split; assumption.
Defined.

(** * Further properties of the plugin *)

(** ** The session guard and the actions under it *)

(** X1. When the service gives no session object, the guard raises that
    error at once: the machine is not locked, the guarded body is not run,
    and nothing is unlocked. *)
Theorem sharedLockedSession_without_session
    (A : Type) (self : Plugin) (vm : IMachine) (body : ISession -> M A)
    (h : list call) (e : exn) :
  sessionObject (vbox_manager self) h = inl e ->
  sharedLockedSession self vm body h = (Raise e, [getSessionObject])
  /\ count is_lock (snd (sharedLockedSession self vm body h)) = 0%nat
  /\ count is_unlock (snd (sharedLockedSession self vm body h)) = 0%nat.
Proof.
  intros Hs.
  rewrite (sharedLockedSession_no_session self vm body h e Hs).
  repeat split.
Qed.

Lemma sharedLockedSession_without_session_run :
  acpiPowerVm (plugin some_states getSession_fails) 1%nat []
    = (Raise (Exception "no session"), [getSessionObject])
  /\ count is_lock (snd (acpiPowerVm (plugin some_states getSession_fails) 1%nat [])) = 0%nat
  /\ count is_unlock (snd (acpiPowerVm (plugin some_states getSession_fails) 1%nat [])) = 0%nat.
Proof.
  exact (sharedLockedSession_without_session unit
           (plugin some_states getSession_fails) 1%nat
           (fun s => perform (service some_states getSession_fails) (console_powerButton s))
           [] (Exception "no session") eq_refl).
Defined.

(** X2. When no call raises, each of the six actions under a shared session
    makes exactly four calls and returns: it asks for a session object, locks
    the machine into it with the shared lock type, makes its one call on that
    session, and unlocks that same session. *)
Theorem shared_action_success
    (k : ActionKind) (self : Plugin) (vm : IMachine)
    (h : list call) (s : ISession) (c : call) :
  let vbox := vbox_manager self in
  let lock := lockMachine vm s (LockType_Shared (vbox_constants self)) in
  session_call k s = Some c ->
  sessionObject vbox h = inr s ->
  raises vbox (getSessionObject :: h) lock = None ->
  raises vbox (lock :: getSessionObject :: h) c = None ->
  raises vbox (c :: lock :: getSessionObject :: h) (unlockMachine s) = None ->
  kind_method k self vm h = (Return tt, [unlockMachine s; c; lock; getSessionObject]).
Proof.
  intros vbox lock Hk Hs Hl Hc Hu.
  rewrite (shared_action_run k self vm h s c Hk Hs Hl).
  fold vbox lock. rewrite Hu, Hc. reflexivity.
Qed.

Lemma shared_action_success_run :
  discardSavedVm (plugin saved_until_discarded no_failure) 0%nat [] =
    (Return tt,
     [unlockMachine 0%nat; machine_discardSavedState 0%nat;
      lockMachine 0%nat 0%nat 1; getSessionObject]).
Proof.
  exact (shared_action_success DiscardSaved (plugin saved_until_discarded no_failure)
           0%nat [] 0%nat (machine_discardSavedState 0%nat)
           eq_refl eq_refl eq_refl eq_refl eq_refl).
Defined.

(** ** Starting a machine *)


(** X4. [startVm] stops at the first step that raises: without a session
    object no launch is requested, and after a launch that raised there is
    no wait; in both cases the error is logged as the warning and the call
    returns. *)
Theorem startVm_stops_at_first_failure
    (self : Plugin) (vm : IMachine) (h : list call) (e : exn) :
  let vbox := vbox_manager self in
  let started := info (starting_message self vm h) in
  (sessionObject vbox (started :: h) = inl e ->
   startVm self vm h = (Return tt, [warning (str e); getSessionObject; started]))
  /\ (forall s,
        sessionObject vbox (started :: h) = inr s ->
        launched vbox (getSessionObject :: started :: h) vm s "gui" "" = inl e ->
        startVm self vm h =
          (Return tt, [warning (str e); launchVMProcess vm s "gui" "";
                       getSessionObject; started])).
Proof.
  intros vbox started. split.
  - intros Hs. rewrite startVm_run. cbn zeta. fold vbox started. rewrite Hs. reflexivity.
  - intros s Hs Hl. rewrite startVm_run. cbn zeta. fold vbox started.
    rewrite Hs, Hl. reflexivity.
Qed.

Lemma startVm_stops_at_first_failure_run :
  startVm (plugin some_states getSession_fails) 0%nat [] =
    (Return tt, [warning "no session"; getSessionObject;
                 info "Starting VM work-vm IMachine..."])
  /\ startVm (plugin some_states launch_fails) 0%nat [] =
       (Return tt, [warning "cannot launch"; launchVMProcess 0%nat 0%nat "gui" "";
                    getSessionObject; info "Starting VM work-vm IMachine..."]).
Proof.
  split.
  - exact (proj1 (startVm_stops_at_first_failure (plugin some_states getSession_fails)
                    0%nat [] (Exception "no session")) eq_refl).
  - exact (proj2 (startVm_stops_at_first_failure (plugin some_states launch_fails)
                    0%nat [] (Exception "cannot launch")) 0%nat eq_refl eq_refl).
Defined.

(** ** Building an item *)

Ltac split_on_state state c :=
  destruct (Z.eqb_spec state (MachineState_PoweredOff c));
  destruct (Z.eqb_spec state (MachineState_Aborted c));
  destruct (Z.eqb_spec state (MachineState_Saved c));
  destruct (Z.eqb_spec state (MachineState_Running c));
  destruct (Z.eqb_spec state (MachineState_Paused c)).

(** X5. Whatever the codes of the SDK are, the ids of the actions of an
    item are pairwise different. *)
Theorem buildItem_action_ids_unique (self : Plugin) (vm : IMachine) (h : list call) :
  exists item,
    buildItem self vm h = (Return item, [])
    /\ NoDup (map action_id (item_actions item)).
Proof.
  eexists. split; [apply buildItem_run|]. cbn [item_actions].
  unfold buildItem_actions, in_list, extend_if. cbn [existsb].
  set (state := machine_state (vbox_manager self) h vm).
  set (c := vbox_constants self).
  split_on_state state c; cbn;
    repeat (constructor; [cbn; intuition discriminate|]); constructor.
Qed.

(** X6. Whatever the codes of the SDK are, each action is offered exactly
    in its states: "startvm" when the state is PoweredOff or Aborted,
    "restorevm" and "discardvm" when it is Saved, "savevm", "poweroffvm",
    "stopvm" and "pausevm" when it is Running, "resumevm" when it is
    Paused. *)
Theorem buildItem_offers_iff (self : Plugin) (vm : IMachine) (state : Z) :
  let c := vbox_constants self in
  let ids := map action_id (buildItem_actions self vm state) in
  (In "startvm"%string ids <->
     state = MachineState_PoweredOff c \/ state = MachineState_Aborted c)
  /\ (In "restorevm"%string ids <-> state = MachineState_Saved c)
  /\ (In "discardvm"%string ids <-> state = MachineState_Saved c)
  /\ (In "savevm"%string ids <-> state = MachineState_Running c)
  /\ (In "poweroffvm"%string ids <-> state = MachineState_Running c)
  /\ (In "stopvm"%string ids <-> state = MachineState_Running c)
  /\ (In "pausevm"%string ids <-> state = MachineState_Running c)
  /\ (In "resumevm"%string ids <-> state = MachineState_Paused c).
Proof.
  intros c ids. unfold ids, buildItem_actions, in_list, extend_if. cbn [existsb].
  fold c.
  split_on_state state c; cbn;
    repeat split; intros; intuition (try discriminate; try congruence).
Qed.

(** X7. Every action of an item is one of the eight bound actions, and its
    callable is a method of the plugin applied to the machine the item was
    built for. *)
Theorem buildItem_actions_same_machine (self : Plugin) (vm : IMachine) (state : Z) :
  Forall (fun a => exists k, a = bound_action self vm k)
         (buildItem_actions self vm state).
Proof.
  unfold buildItem_actions, in_list, extend_if. cbn [existsb].
  set (c := vbox_constants self).
  split_on_state state c; cbn;
    repeat (constructor;
            [first [ now exists Start | now exists RestoreSaved | now exists DiscardSaved
                   | now exists Save | now exists PowerButton | now exists PowerDown
                   | now exists Pause | now exists Resume ]|]);
    constructor.
Qed.

(** ** The query handler *)

(** Lists related pointwise: each element on the right has its partner. *)
Lemma Forall2_partner_left {X Y : Type} (R : X -> Y -> Prop) (xs : list X) (ys : list Y) :
  Forall2 R xs ys -> Forall (fun y => exists x, In x xs /\ R x y) ys.
Proof.
  induction 1 as [|x y xs ys Hxy _ IH]; constructor.
  - exists x. split; [left; reflexivity|exact Hxy].
  - eapply Forall_impl; [|exact IH].
    intros y' (x' & Hin & HR). exists x'. split; [right; exact Hin|exact HR].
Qed.

Section QueryFurther.

Context (Match : Type) (Match_bool : Match -> bool)
        (Matcher_match : string -> string -> Match).
Context (self : Plugin).

(** X8. Every entry the handler returns stands for a machine of the
    inventory whose name the matcher accepted: its match is true, and its
    item is the one [buildItem] builds for that machine. *)
Theorem handleGlobalQuery_entries_sound
    (query : Query) (h : list call) (vms : list IMachine) (items : list (RankItem Match)) :
  let matcher := Matcher_match (query_string query) in
  let h' := getArray_machines :: h in
  machines (vbox_manager self) h = inr vms ->
  fst (handleGlobalQuery Match Match_bool Matcher_match self query h) = Return items ->
  Forall (fun r =>
            Match_bool (rank_match r) = true
            /\ exists vm,
                 In vm vms
                 /\ rank_match r = matcher (machine_name (vbox_manager self) h' vm)
                 /\ buildItem self vm h' = (Return (rank_item r), []))
         items.
Proof.
  intros matcher h' Hvms Hret.
  destruct (handleGlobalQuery_run Match Match_bool Matcher_match self query h) as [_ Hres].
  rewrite Hvms in Hres. destruct Hres as (items' & Hret' & Hall).
  rewrite Hret in Hret'. injection Hret' as <-.
  apply Forall2_partner_left in Hall.
  eapply Forall_impl; [|exact Hall].
  intros r (vm & Hin & Hb & Hm).
  apply filter_In in Hin. destruct Hin as [Hin Hmatched].
  unfold matched in Hmatched. fold matcher h' in Hm, Hb, Hmatched.
  split; [rewrite Hm; exact Hmatched|].
  exists vm. repeat split; assumption.
Qed.

(** X9. When the enumeration answers, the handler returns as many entries
    as there are machines with a matching name, hence never more than there
    are machines, and none for an empty inventory. *)
Theorem handleGlobalQuery_length
    (query : Query) (h : list call) (vms : list IMachine) :
  let matcher := Matcher_match (query_string query) in
  let h' := getArray_machines :: h in
  machines (vbox_manager self) h = inr vms ->
  exists items,
    fst (handleGlobalQuery Match Match_bool Matcher_match self query h) = Return items
    /\ List.length items
       = List.length (filter (fun vm => Match_bool
                                          (matcher (machine_name (vbox_manager self) h' vm)))
                             vms)
    /\ (List.length items <= List.length vms)%nat
    /\ (vms = [] -> items = []).
Proof.
  intros matcher h' Hvms.
  destruct (handleGlobalQuery_run Match Match_bool Matcher_match self query h) as [_ Hres].
  rewrite Hvms in Hres. destruct Hres as (items & Hret & Hall).
  exists items. split; [exact Hret|].
  pose proof (Forall2_length Hall) as Hlen. fold matcher h' in Hlen.
  unfold matched in Hlen at 1.
  split; [symmetry; exact Hlen|].
  split.
  - rewrite <- Hlen. apply filter_length_le.
  - intros ->. cbn in Hlen. destruct items; [reflexivity|discriminate Hlen].
Qed.

(** X10. With the codes of the SDK pairwise different, every entry the
    handler returns offers exactly the actions of the table row of its
    machine's state, bound to that machine. *)
Theorem handleGlobalQuery_offers_legal_actions
    (query : Query) (h : list call) (vms : list IMachine) (items : list (RankItem Match)) :
  let c := vbox_constants self in
  let h' := getArray_machines :: h in
  distinct_states c ->
  machines (vbox_manager self) h = inr vms ->
  fst (handleGlobalQuery Match Match_bool Matcher_match self query h) = Return items ->
  Forall (fun r =>
            exists vm,
              In vm vms
              /\ item_id (rank_item r) = machine_id (vbox_manager self) h' vm
              /\ item_actions (rank_item r)
                 = map (bound_action self vm)
                       (legalActions c (machine_state (vbox_manager self) h' vm)))
         items.
Proof.
  intros c h' Hd Hvms Hret.
  destruct (handleGlobalQuery_run Match Match_bool Matcher_match self query h) as [_ Hres].
  rewrite Hvms in Hres. destruct Hres as (items' & Hret' & Hall).
  rewrite Hret in Hret'. injection Hret' as <-.
  apply Forall2_partner_left in Hall.
  eapply Forall_impl; [|exact Hall].
  intros r (vm & Hin & Hb & _).
  apply filter_In in Hin. destruct Hin as [Hin _].
  exists vm. split; [exact Hin|]. fold h' in Hb.
  rewrite buildItem_run in Hb. injection Hb as Hb. rewrite <- Hb. cbn [item_id item_actions].
  split; [reflexivity|]. apply buildItem_actions_table. exact Hd.
Qed.

End QueryFurther.

(** * Properties of the set-up *)

Section SetupProperties.

Import Setup.

(** ** Paths and block reads *)

Lemma append_empty (s : string) : (s ++ "")%string = s.
Proof.
  induction s as [|a s IH]; cbn; [reflexivity|]. f_equal. exact IH.
Qed.

Lemma split_slash_not_nil (acc s : string) : split_slash acc s <> [].
Proof.
  revert acc. induction s as [|a s IH]; intros acc; cbn.
  - discriminate.
  - destruct (Ascii.eqb a "/"); [discriminate|apply IH].
Qed.

Lemma split_slash_no_slash (acc name : string) :
  (forall c, In c (list_ascii_of_string name) -> c <> "/"%char) ->
  split_slash acc name = [(acc ++ name)%string].
Proof.
  revert acc. induction name as [|c name IH]; intros acc Hn; cbn.
  - rewrite append_empty. reflexivity.
  - destruct (Ascii.eqb_spec c "/") as [->|_].
    + exfalso. apply (Hn "/"%char); [left; reflexivity|reflexivity].
    + rewrite IH by (intros c' Hc'; apply Hn; right; exact Hc').
      f_equal. clear. induction acc as [|a acc IHa]; cbn; [reflexivity|].
      f_equal. exact IHa.
Qed.

Lemma split_slash_last (acc dir name : string) :
  (forall c, In c (list_ascii_of_string name) -> c <> "/"%char) ->
  last (split_slash acc (dir ++ String "/" name)) ""%string = name.
Proof.
  intros Hn. revert acc. induction dir as [|c dir IH]; intros acc; cbn.
  - rewrite split_slash_no_slash by exact Hn. reflexivity.
  - destruct (Ascii.eqb c "/").
    + specialize (IH ""%string).
      pose proof (split_slash_not_nil "" (dir ++ String "/" name)) as Hnil.
      destruct (split_slash "" (dir ++ String "/" name)); [contradiction|exact IH].
    + apply IH.
Qed.

(** [basename] undoes a join: for a name without a slash, the base
    name of [dir/name] is the name, whatever [dir] is. *)
Lemma basename_of_join (dir name : string) :
  (forall c, In c (list_ascii_of_string name) -> c <> "/"%char) ->
  basename (dir ++ "/" ++ name) = name.
Proof.
  intros Hn. unfold basename. apply split_slash_last. exact Hn.
Qed.

(** The file the SDK is downloaded to lies directly in the cache
    directory. *)
Lemma filename_in_cache (cache_location : Path) :
  joinpath cache_location (basename url)
    = cache_location ++ ["VirtualBoxSDK-7.0.26-168464.zip"%string].
Proof.
  reflexivity.
Qed.

(** X11. The downloaded file is a direct child of the cache directory, the
    directory that [installSDK] removes in the end. *)
Theorem download_lies_in_cache (cache_location : Path) :
  parent (joinpath cache_location (basename url)) = cache_location.
Proof.
  rewrite filename_in_cache. unfold parent. apply removelast_last.
Qed.

(** The blocks read are never empty and never longer than asked for, and
    put together they are the file. *)
Lemma read_blocks_spec (n : nat) (data : list byte) :
  (0 < n)%nat ->
  List.concat (read_blocks n data) = data
  /\ Forall (fun block => (0 < List.length block <= n)%nat) (read_blocks n data).
Proof.
  intros Hn. funelim (read_blocks n data).
  - match goal with E : firstn _ _ = [] |- _ => rename E into Hempty end.
    destruct n as [|n]; [lia|]. destruct data; [|discriminate Hempty].
    split; [reflexivity|constructor].
  - match goal with E : firstn _ _ = _ :: _ |- _ => rename E into Hblock end.
    match goal with IH : (0 < _)%nat -> _ |- _ => destruct (IH Hn) as [Hc Hf] end.
    cbn [List.concat]. rewrite Hc, <- Hblock.
    split; [apply firstn_skipn|].
    constructor; [|exact Hf].
    assert (List.length (firstn n data) <> 0)%nat
      by (rewrite Hblock; discriminate).
    rewrite length_firstn in *. lia.
Qed.

(** X12. The loop that feeds the digest reads the whole file: its blocks,
    put together in order, are the bytes of the file, and each block holds
    between one and [n] bytes. *)
Theorem read_blocks_cover_file (n : nat) (data : list byte) :
  (0 < n)%nat ->
  List.concat (read_blocks n data) = data
  /\ Forall (fun block => (0 < List.length block <= n)%nat) (read_blocks n data).
Proof.
  intros Hn. exact (read_blocks_spec n data Hn).
Qed.

(** With a block size of zero nothing is read. *)
Lemma read_blocks_zero (data : list byte) : read_blocks 0 data = [].
Proof.
  funelim (read_blocks 0 data); [reflexivity|].
  match goal with E : firstn 0 _ = _ :: _ |- _ => discriminate E end.
Qed.

Lemma fold_update_concat (host : Host) (blocks : list (list byte)) :
  (forall st, sha256_update host st [] = st) ->
  (forall st a b,
     sha256_update host (sha256_update host st a) b = sha256_update host st (a ++ b)) ->
  forall st,
    fold_left (sha256_update host) blocks st
      = sha256_update host st (List.concat blocks).
Proof.
  intros Hnil Happ. induction blocks as [|block blocks IH]; intros st; cbn.
  - symmetry. apply Hnil.
  - rewrite IH. apply Happ.
Qed.

(** X13. For a digest object on which feeding two blocks in turn is the
    same as feeding them joined (as hashlib's are), the digest that
    [installSDK] compares is the digest of the whole downloaded file. *)
Theorem sha_actual_whole_file (host : Host) (data : list byte) :
  (forall st, sha256_update host st [] = st) ->
  (forall st a b,
     sha256_update host (sha256_update host st a) b = sha256_update host st (a ++ b)) ->
  sha_actual host data
    = sha256_hexdigest host (sha256_update host (sha256_new host) data).
Proof.
  intros Hnil Happ. unfold sha_actual.
  rewrite (fold_update_concat host _ Hnil Happ).
  destruct (read_blocks_spec (Z.to_nat 8192) data) as [-> _]; [lia|reflexivity].
Qed.

(** ** installSDK *)

(** Every way the [try] block of [installSDK] can run. *)
Lemma installSDK_try_run (host : Host) (cl : Path) (h : list event) :
  let filename := joinpath cl (basename url) in
  let e1 := info "Downloading SDK ..." in
  let e2 := urlretrieve url filename in
  let e3 := open_rb filename in
  let e4 := info "Extracting SDK ..." in
  let e5 := ZipFile filename in
  let e6 := extractall filename cl in
  let e7 := info "Installing SDK ..." in
  let checked := [e3; e2; e1] in
  let unpacked := e7 :: e6 :: e5 :: e4 :: checked in
  let install (path : string) :=
    let e8 := subprocess_run ["sh"; "-c"; script host cl path]%string in
    (match raises host (unpacked ++ h) e8 with
     | Some e => Raises e
     | None => Returns tt
     end, e8 :: unpacked) in
  installSDK_try host cl h =
    match raises host (e1 :: h) e2 with
    | Some e => (Raises e, [e2; e1])
    | None =>
    match raises host (e2 :: e1 :: h) e3 with
    | Some e => (Raises e, checked)
    | None =>
    if negb (lower (sha_actual host (file_content host (checked ++ h) filename))
             =? lower sha_expected)%string
    then (Raises (ValueError "Downloaded file failed integrity check."), checked)
    else
    match raises host (e4 :: checked ++ h) e5 with
    | Some e => (Raises e, e5 :: e4 :: checked)
    | None =>
    match raises host (e5 :: e4 :: checked ++ h) e6 with
    | Some e => (Raises e, e6 :: e5 :: e4 :: checked)
    | None =>
    if (platform host =? "darwin")%string
    then install "/Applications/VirtualBox.app/Contents/MacOS/"%string
    else if (platform host =? "linux")%string
    then install "/usr/lib/virtualbox"%string
    else (Raises (NotImplementedError "Unhandled platform. See README."), unpacked)
    end end end end.
Proof.
  intros filename e1 e2 e3 e4 e5 e6 e7 checked unpacked install.
  unfold install, unpacked, checked, e7, e6, e5, e4, e3, e2, e1.
  unfold installSDK_try, bind, perform, log, read, ret, raise.
  fold filename. cbn [app].
  destruct (raises host _ (urlretrieve url filename)); [reflexivity|].
  destruct (raises host _ (open_rb filename)); [reflexivity|].
  destruct (negb _); [reflexivity|]. cbn [app].
  destruct (raises host _ (ZipFile filename)); [reflexivity|].
  destruct (raises host _ (extractall filename cl)); [reflexivity|]. cbn [app].
  destruct (platform host =? "darwin")%string; [cbn [app]; reflexivity|].
  destruct (platform host =? "linux")%string; reflexivity.
Qed.

(** [installSDK]: the directory is made, the [try] block runs, the
    directory is removed. *)
Lemma installSDK_run (host : Host) (h : list event) :
  let cl := cacheLocation host in
  let tried := installSDK_try host cl (mkdir cl :: h) in
  installSDK host h =
    match raises host h (mkdir cl) with
    | Some e => (Raises e, [mkdir cl])
    | None =>
        (match raises host (snd tried ++ mkdir cl :: h) (rmtree cl) with
         | Some e' => Raises e'
         | None => fst tried
         end,
         rmtree cl :: snd tried ++ [mkdir cl])
    end.
Proof.
  intros cl tried. unfold installSDK, bind, try_finally, perform. fold cl.
  destruct (raises host h (mkdir cl)); [reflexivity|]. cbn [app]. fold tried.
  destruct tried as [r es]. cbn [fst snd].
  destruct (raises host (es ++ mkdir cl :: h) (rmtree cl)); reflexivity.
Qed.

(** Case analysis on every way the [try] block can run. *)
Ltac installSDK_try_cases host cl h :=
  rewrite (installSDK_try_run host cl h); cbv zeta;
  destruct (raises host _ (urlretrieve _ _));
  [|destruct (raises host _ (open_rb _));
    [|destruct (negb _) eqn:?;
      [|destruct (raises host _ (ZipFile _));
        [|destruct (raises host _ (extractall _ _));
          [|destruct (platform host =? "darwin")%string eqn:?;
            [destruct (raises host _ (subprocess_run _))
            |destruct (platform host =? "linux")%string eqn:?;
             [destruct (raises host _ (subprocess_run _))|]]]]]]].

(** The [try] block neither makes nor removes a directory. *)
Lemma installSDK_try_keeps_directory (host : Host) (cl : Path) (h : list event) :
  count is_rmtree (snd (installSDK_try host cl h)) = 0%nat
  /\ count is_mkdir (snd (installSDK_try host cl h)) = 0%nat.
Proof.
  installSDK_try_cases host cl h; split; reflexivity.
Qed.

Lemma setup_count_app (p : event -> bool) (es es' : list event) :
  count p (es ++ es') = (count p es + count p es')%nat.
Proof.
  unfold count. rewrite filter_app. apply length_app.
Qed.

(** X14. Once the cache directory is made, [installSDK] removes it exactly
    once, as its last call, however the steps in between end; an error of
    that removal is the one raised, and otherwise the outcome is that of the
    steps in between. *)
Theorem installSDK_removes_cache_dir (host : Host) (h : list event) :
  let cl := cacheLocation host in
  let tried := installSDK_try host cl (mkdir cl :: h) in
  raises host h (mkdir cl) = None ->
  snd (installSDK host h) = rmtree cl :: snd tried ++ [mkdir cl]
  /\ count is_rmtree (snd (installSDK host h)) = 1%nat
  /\ count is_mkdir (snd (installSDK host h)) = 1%nat
  /\ fst (installSDK host h) =
       match raises host (snd tried ++ mkdir cl :: h) (rmtree cl) with
       | Some e' => Raises e'
       | None => fst tried
       end.
Proof.
  intros cl tried Hm. rewrite installSDK_run. cbv zeta. fold cl tried. rewrite Hm.
  cbn [fst snd].
  destruct (installSDK_try_keeps_directory host cl (mkdir cl :: h)) as [Hr Hd].
  fold tried in Hr, Hd.
  split; [reflexivity|].
  split; [|split; [|reflexivity]].
  - change (rmtree cl :: snd tried ++ [mkdir cl])
      with ([rmtree cl] ++ snd tried ++ [mkdir cl]).
    rewrite !setup_count_app, Hr. reflexivity.
  - change (rmtree cl :: snd tried ++ [mkdir cl])
      with ([rmtree cl] ++ snd tried ++ [mkdir cl]).
    rewrite !setup_count_app, Hd. reflexivity.
Qed.

(** X15. When the cache directory cannot be made (it exists already, say),
    [installSDK] raises that error and does nothing else: nothing is
    downloaded and no directory is removed. *)
Theorem installSDK_mkdir_failure (host : Host) (h : list event) (e : error) :
  raises host h (mkdir (cacheLocation host)) = Some e ->
  installSDK host h = (Raises e, [mkdir (cacheLocation host)]).
Proof.
  intros Hm. rewrite installSDK_run. cbv zeta. rewrite Hm. reflexivity.
Qed.

(** X16. Nothing downloaded is unpacked or run unless its digest is the
    expected one: on every run in which the archive is opened, extracted or
    the install script is started, the digest of the file read after the
    download equals the expected digest, letter case apart. *)
Theorem installSDK_integrity_gate (host : Host) (h : list event) :
  let cl := cacheLocation host in
  let filename := joinpath cl (basename url) in
  let read_at :=
    [open_rb filename; urlretrieve url filename; info "Downloading SDK ..."; mkdir cl]
      ++ h in
  existsb uses_download (snd (installSDK host h)) = true ->
  lower (sha_actual host (file_content host read_at filename)) = lower sha_expected.
Proof.
  intros cl filename read_at. rewrite installSDK_run. cbv zeta. fold cl.
  destruct (raises host h (mkdir cl)); [discriminate|].
  cbn [snd existsb uses_download orb]. rewrite existsb_app.
  cbn [existsb uses_download]. rewrite !orb_false_r.
  installSDK_try_cases host cl (mkdir cl :: h); cbn; try discriminate; intros _;
    match goal with
    | H : negb _ = false |- _ =>
        apply negb_false_iff in H; apply String.eqb_eq in H; exact H
    end.
Qed.

(** X17. On a platform that is neither "darwin" nor "linux", [installSDK]
    never starts the install script and never returns normally, although
    it may download and unpack the SDK before it gives up. *)
Theorem installSDK_unsupported_platform (host : Host) (h : list event) :
  platform host <> "darwin"%string ->
  platform host <> "linux"%string ->
  count is_subprocess_run (snd (installSDK host h)) = 0%nat
  /\ fst (installSDK host h) <> Returns tt.
Proof.
  intros Hd Hl.
  apply String.eqb_neq in Hd. apply String.eqb_neq in Hl.
  rewrite installSDK_run. cbv zeta.
  set (cl := cacheLocation host).
  destruct (raises host h (mkdir cl)); [split; [reflexivity|discriminate]|].
  cbn [fst snd].
  change (rmtree cl :: snd (installSDK_try host cl (mkdir cl :: h)) ++ [mkdir cl])
    with ([rmtree cl] ++ snd (installSDK_try host cl (mkdir cl :: h)) ++ [mkdir cl]).
  rewrite !setup_count_app.
  destruct (raises host _ (rmtree cl));
    installSDK_try_cases host cl (mkdir cl :: h);
    try congruence; split; (reflexivity || discriminate).
Qed.

(** X18. When [installSDK] returns normally, every step has run, in this
    order: the directory was made, the SDK downloaded, the file opened and
    its digest found to be the expected one, the archive opened and
    extracted into the cache directory, the install script run by [sh -c]
    with the install path of the platform, and the directory removed. *)
Theorem installSDK_success (host : Host) (h : list event) :
  let cl := cacheLocation host in
  let filename := joinpath cl (basename url) in
  let before_check :=
    [open_rb filename; urlretrieve url filename; info "Downloading SDK ..."; mkdir cl] in
  fst (installSDK host h) = Returns tt ->
  lower (sha_actual host (file_content host (before_check ++ h) filename))
    = lower sha_expected
  /\ exists path,
       (platform host = "darwin"%string
          /\ path = "/Applications/VirtualBox.app/Contents/MacOS/"%string
        \/ platform host = "linux"%string /\ path = "/usr/lib/virtualbox"%string)
       /\ snd (installSDK host h) =
            [rmtree cl;
             subprocess_run ["sh"; "-c"; script host cl path]%string;
             info "Installing SDK ...";
             extractall filename cl;
             ZipFile filename;
             info "Extracting SDK ..."]
            ++ before_check.
Proof.
  intros cl filename before_check.
  rewrite installSDK_run. cbv zeta. fold cl.
  destruct (raises host h (mkdir cl)); [discriminate|].
  cbn [fst snd].
  destruct (raises host _ (rmtree cl)); [discriminate|].
  installSDK_try_cases host cl (mkdir cl :: h); cbn [fst snd]; try discriminate;
    intros _;
    (split;
     [match goal with
      | H : negb _ = false |- _ =>
          apply negb_false_iff in H; apply String.eqb_eq in H; exact H
      end|]).
  - exists "/Applications/VirtualBox.app/Contents/MacOS/"%string.
    split; [left; split; [apply String.eqb_eq; assumption|reflexivity]|reflexivity].
  - exists "/usr/lib/virtualbox"%string.
    split; [right; split; [apply String.eqb_eq; assumption|reflexivity]|reflexivity].
Qed.

(** ** __init__ *)

(** Every way the import of the SDK module can go. *)
Lemma import_or_install_run (host : Host) (h : list event) :
  let installed := installSDK host (import_vboxapi :: h) in
  import_or_install host h =
    match raises host h import_vboxapi with
    | None => (Returns tt, [import_vboxapi])
    | Some e =>
        if is_ImportError e then
          match fst installed with
          | Raises e' => (Raises e', snd installed ++ [import_vboxapi])
          | Returns _ =>
              (match raises host (snd installed ++ import_vboxapi :: h) import_vboxapi with
               | None => Returns tt
               | Some e2 =>
                   if is_ImportError e2
                   then Raises (ImportError
                          "Failed to import vboxapi despite successful SDK installation.")
                   else Raises e2
               end,
               import_vboxapi :: snd installed ++ [import_vboxapi])
          end
        else (Raises e, [import_vboxapi])
    end.
Proof.
  intros installed.
  unfold import_or_install, try_except at 1, perform at 1.
  destruct (raises host h import_vboxapi) as [e|]; [|reflexivity].
  destruct (is_ImportError e); [|reflexivity].
  unfold bind. cbn [app]. fold installed.
  destruct installed as [[[]|e'] es]; cbn [fst snd]; [|reflexivity].
  unfold try_except, perform, raise.
  destruct (raises host (es ++ import_vboxapi :: h) import_vboxapi) as [e2|];
    [|reflexivity].
  destruct (is_ImportError e2); reflexivity.
Qed.

(** [installSDK] does not import the module itself. *)
Lemma installSDK_no_import (host : Host) (h : list event) :
  count is_import (snd (installSDK host h)) = 0%nat.
Proof.
  rewrite installSDK_run. cbv zeta.
  set (cl := cacheLocation host).
  destruct (raises host h (mkdir cl)); [reflexivity|]. cbn [snd].
  change (rmtree cl :: snd (installSDK_try host cl (mkdir cl :: h)) ++ [mkdir cl])
    with ([rmtree cl] ++ snd (installSDK_try host cl (mkdir cl :: h)) ++ [mkdir cl]).
  rewrite !setup_count_app.
  installSDK_try_cases host cl (mkdir cl :: h); reflexivity.
Qed.

(** What [__init__] does once the platform has given the icon. *)
Lemma init_run (host : Host) (h : list event) :
  let imported := import_or_install host h in
  let finish (icon : Icon) :=
    match fst imported with
    | Raises e => (Raises e, snd imported)
    | Returns _ =>
        match raises host (snd imported ++ h) VirtualBoxManager_new with
        | Some e => (Raises e, VirtualBoxManager_new :: snd imported)
        | None =>
            (match raises host (VirtualBoxManager_new :: snd imported ++ h)
                          getVirtualBox with
             | Some e => Raises e
             | None => Returns {| icon_factory := icon; vbox_manager := manager host |}
             end,
             getVirtualBox :: VirtualBoxManager_new :: snd imported)
        end
    end in
  __init__ host h =
    if (platform host =? "darwin")%string
    then finish (Icon_fileType "/Applications/VirtualBox.app")
    else if (platform host =? "linux")%string
    then finish (Icon_theme "virtualbox")
    else (Raises (NotImplementedError "Unhandled platform. Port me!"), []).
Proof.
  intros imported finish. unfold finish, __init__.
  assert (Hafter : forall icon,
    bind (ret icon) (fun icon_factory =>
      bind (import_or_install host) (fun _ =>
        bind (perform host VirtualBoxManager_new) (fun _ =>
          bind (perform host getVirtualBox) (fun _ =>
            ret {| icon_factory := icon_factory; vbox_manager := manager host |})))) h
    = finish icon).
  { intros icon. unfold finish, bind, ret, perform. cbn [app]. fold imported.
    destruct imported as [[[]|e] es]; cbn [fst snd];
      [|rewrite app_nil_r; reflexivity].
    destruct (raises host (es ++ h) VirtualBoxManager_new);
      [cbn [app]; rewrite app_nil_r; reflexivity|].
    cbn [app].
    destruct (raises host (VirtualBoxManager_new :: es ++ h) getVirtualBox);
      cbn [app]; rewrite app_nil_r; reflexivity. }
  destruct (platform host =? "darwin")%string; [apply Hafter|].
  destruct (platform host =? "linux")%string; [apply Hafter|].
  reflexivity.
Qed.

(** On a supported platform one of the first two branches is taken. *)
Ltac init_on_supported host h Hp :=
  rewrite (init_run host h); cbv zeta;
  destruct (String.eqb_spec (platform host) "darwin");
  [|destruct (String.eqb_spec (platform host) "linux");
    [|exfalso; destruct Hp; contradiction]].

(** X19. On a platform that is neither "darwin" nor "linux", [__init__]
    raises [NotImplementedError] before it makes any call: no import is
    tried and nothing is downloaded. *)
Theorem init_unsupported_platform (host : Host) (h : list event) :
  ~ supported host ->
  __init__ host h = (Raises (NotImplementedError "Unhandled platform. Port me!"), []).
Proof.
  intros Hp. rewrite init_run. cbv zeta.
  destruct (String.eqb_spec (platform host) "darwin") as [Hd|_];
    [exfalso; apply Hp; left; exact Hd|].
  destruct (String.eqb_spec (platform host) "linux") as [Hl|_];
    [exfalso; apply Hp; right; exact Hl|].
  reflexivity.
Qed.

(** X20. When the first import of the module succeeds, [__init__] imports
    once and installs nothing: none of the steps of [installSDK] is made. *)
Theorem init_module_present (host : Host) (h : list event) :
  supported host ->
  raises host h import_vboxapi = None ->
  count is_install_step (snd (__init__ host h)) = 0%nat
  /\ count is_import (snd (__init__ host h)) = 1%nat.
Proof.
  intros Hp Hi.
  init_on_supported host h Hp;
    rewrite import_or_install_run; cbv zeta; rewrite Hi; cbn [fst snd app];
    destruct (raises host _ VirtualBoxManager_new); split; reflexivity.
Qed.


(** X22. When the module is missing and [installSDK] raises, [__init__]
    raises that error: the import is not tried again and no manager is
    made. *)
Theorem init_install_failure (host : Host) (h : list event) (e e' : error) :
  let installed := installSDK host (import_vboxapi :: h) in
  supported host ->
  raises host h import_vboxapi = Some e ->
  is_ImportError e = true ->
  fst installed = Raises e' ->
  __init__ host h = (Raises e', snd installed ++ [import_vboxapi])
  /\ count is_import (snd (__init__ host h)) = 1%nat.
Proof.
  intros installed Hp Hi He Hinst.
  assert (E : __init__ host h = (Raises e', snd installed ++ [import_vboxapi])).
  { init_on_supported host h Hp;
      rewrite import_or_install_run; cbv zeta; rewrite Hi, He;
      fold installed; rewrite Hinst; reflexivity. }
  rewrite E. split; [reflexivity|]. cbn [snd].
  rewrite setup_count_app. unfold installed. rewrite installSDK_no_import. reflexivity.
Qed.


(** X24. Whenever [__init__] returns a plugin, the platform is a supported
    one and the plugin carries its icon (the application's file type on
    "darwin", the theme icon on "linux") and the manager object of the SDK;
    the module was imported once or twice, and the last call fetched the
    VirtualBox object. *)
Theorem init_returns_plugin (host : Host) (h : list event) (self : Plugin) :
  fst (__init__ host h) = Returns self ->
  (platform host = "darwin"%string
     /\ icon_factory self = Icon_fileType "/Applications/VirtualBox.app"
   \/ platform host = "linux"%string
     /\ icon_factory self = Icon_theme "virtualbox")
  /\ vbox_manager self = manager host
  /\ hd_error (snd (__init__ host h)) = Some getVirtualBox
  /\ (1 <= count is_import (snd (__init__ host h)) <= 2)%nat.
Proof.
  rewrite init_run. cbv zeta.
  assert (Himp : (1 <= count is_import (snd (import_or_install host h)) <= 2)%nat).
  { rewrite import_or_install_run. cbv zeta.
    destruct (raises host h import_vboxapi) as [e|]; [|cbn; lia].
    destruct (is_ImportError e); [|cbn; lia].
    pose proof (installSDK_no_import host (import_vboxapi :: h)) as Hn.
    destruct (fst (installSDK host (import_vboxapi :: h))); cbn [snd].
    - change (import_vboxapi :: ?l) with ([import_vboxapi] ++ l).
      rewrite !setup_count_app, Hn. cbn. lia.
    - rewrite setup_count_app, Hn. cbn. lia. }
  destruct (String.eqb_spec (platform host) "darwin") as [Hd|_];
    [|destruct (String.eqb_spec (platform host) "linux") as [Hl|_];
      [|discriminate]];
    (destruct (fst (import_or_install host h)); [|discriminate];
     destruct (raises host _ VirtualBoxManager_new); [discriminate|];
     destruct (raises host _ getVirtualBox); [discriminate|];
     cbn [fst snd]; intros [= <-]; cbn [icon_factory vbox_manager hd_error];
     split; [auto|]; split; [reflexivity|]; split; [reflexivity|];
     change (getVirtualBox :: VirtualBoxManager_new :: ?l)
       with ([getVirtualBox; VirtualBoxManager_new] ++ l);
     rewrite setup_count_app;
     change (count is_import [getVirtualBox; VirtualBoxManager_new]) with 0%nat;
     lia).
Qed.

End SetupProperties.

(** * Runs of the further properties *)

Lemma handleGlobalQuery_entries_sound_run :
  exists items,
    fst (handleGlobalQuery bool (fun b => b) contains
           (plugin some_states no_failure) {| query_string := "vm" |} []) = Return items
    /\ Forall (fun r => rank_match r = true) items
    /\ List.length items = 2%nat.
Proof.
  eexists. split; [reflexivity|].
  split; [|reflexivity].
  eapply Forall_impl;
    [|exact (handleGlobalQuery_entries_sound bool (fun b => b) contains
               (plugin some_states no_failure) {| query_string := "vm" |} []
               [0; 1; 2]%nat _ eq_refl eq_refl)].
  intros r [Hr _]. exact Hr.
Defined.

Lemma handleGlobalQuery_length_run :
  exists items,
    fst (handleGlobalQuery bool (fun b => b) contains
           (plugin some_states no_failure) {| query_string := "vm" |} []) = Return items
    /\ List.length items = 2%nat.
Proof.
  destruct (handleGlobalQuery_length bool (fun b => b) contains
              (plugin some_states no_failure) {| query_string := "vm" |} []
              [0; 1; 2]%nat eq_refl) as (items & Hret & Hlen & _).
  exists items. split; [exact Hret|exact Hlen].
Defined.

Lemma handleGlobalQuery_offers_legal_actions_run :
  exists items,
    fst (handleGlobalQuery bool (fun b => b) contains
           (plugin some_states no_failure) {| query_string := "test" |} []) = Return items
    /\ Forall (fun r =>
                 exists vm,
                   In vm [0; 1; 2]%nat
                   /\ item_id (rank_item r)
                      = machine_id (service some_states no_failure) [getArray_machines] vm
                   /\ item_actions (rank_item r)
                      = map (bound_action (plugin some_states no_failure) vm)
                            (legalActions sdk7 (some_states [getArray_machines] vm)))
              items.
Proof.
  eexists. split; [reflexivity|].
  exact (handleGlobalQuery_offers_legal_actions bool (fun b => b) contains
           (plugin some_states no_failure) {| query_string := "test" |} []
           [0; 1; 2]%nat _ sdk7_distinct eq_refl eq_refl).
Defined.

Section SetupRuns.

Import Setup.

Lemma read_blocks_cover_file_run :
  List.concat (read_blocks 2 [x00; x01; x02; x03; x04]) = [x00; x01; x02; x03; x04]
  /\ Forall (fun block => (0 < List.length block <= 2)%nat)
            (read_blocks 2 [x00; x01; x02; x03; x04]).
Proof.
  apply read_blocks_cover_file. lia.
Defined.

Lemma sha_actual_whole_file_run :
  sha_actual (demo_host "linux" nothing_fails good_file) good_file = sha_expected.
Proof.
  rewrite (sha_actual_whole_file (demo_host "linux" nothing_fails good_file) good_file).
  - reflexivity.
  - intros st. apply app_nil_r.
  - intros st a b. cbn. symmetry. apply app_assoc.
Defined.

Lemma installSDK_removes_cache_dir_run :
  let host := demo_host "linux" download_fails good_file in
  hd_error (snd (installSDK host [])) = Some (rmtree (cacheLocation host))
  /\ count is_rmtree (snd (installSDK host [])) = 1%nat
  /\ fst (installSDK host []) = Raises (OtherError "URLError" "unreachable").
Proof.
  intros host.
  destruct (installSDK_removes_cache_dir host [] eq_refl) as (Hev & Hcount & _ & Hres).
  split; [rewrite Hev; reflexivity|].
  split; [exact Hcount|].
  rewrite Hres. reflexivity.
Defined.

Lemma installSDK_mkdir_failure_run :
  let host := demo_host "linux" mkdir_fails good_file in
  installSDK host [] =
    (Raises (OtherError "FileExistsError" "File exists"), [mkdir (cacheLocation host)]).
Proof.
  exact (installSDK_mkdir_failure (demo_host "linux" mkdir_fails good_file) []
           (OtherError "FileExistsError" "File exists") eq_refl).
Defined.

Lemma installSDK_integrity_gate_run :
  lower (sha_actual (demo_host "linux" nothing_fails good_file) good_file)
    = lower sha_expected.
Proof.
  exact (installSDK_integrity_gate (demo_host "linux" nothing_fails good_file) [] eq_refl).
Defined.

Lemma installSDK_unsupported_platform_run :
  let host := demo_host "freebsd" nothing_fails good_file in
  count is_subprocess_run (snd (installSDK host [])) = 0%nat
  /\ fst (installSDK host []) <> Returns tt.
Proof.
  apply installSDK_unsupported_platform; discriminate.
Defined.

Lemma installSDK_success_run :
  let host := demo_host "linux" nothing_fails good_file in
  exists path,
    path = "/usr/lib/virtualbox"%string
    /\ hd_error (tl (snd (installSDK host [])))
       = Some (subprocess_run ["sh"; "-c"; script host (cacheLocation host) path]%string).
Proof.
  intros host.
  destruct (installSDK_success host [] eq_refl) as (_ & path & Hp & Hev).
  exists path. split.
  - destruct Hp as [[Hd _]|[_ Hl]]; [discriminate Hd|exact Hl].
  - rewrite Hev. reflexivity.
Defined.

Lemma init_unsupported_platform_run :
  __init__ (demo_host "win32" nothing_fails good_file) [] =
    (Raises (NotImplementedError "Unhandled platform. Port me!"), []).
Proof.
  apply init_unsupported_platform. intros [H|H]; discriminate H.
Defined.

Lemma init_module_present_run :
  let host := demo_host "linux" nothing_fails good_file in
  count is_install_step (snd (__init__ host [])) = 0%nat
  /\ count is_import (snd (__init__ host [])) = 1%nat.
Proof.
  apply init_module_present; [right; reflexivity|reflexivity].
Defined.


Lemma init_install_failure_run :
  let host := demo_host "linux" missing_and_offline good_file in
  fst (__init__ host []) = Raises (OtherError "URLError" "unreachable")
  /\ count is_import (snd (__init__ host [])) = 1%nat.
Proof.
  intros host.
  destruct (init_install_failure host []
              (ModuleNotFoundError "No module named 'vboxapi'")
              (OtherError "URLError" "unreachable")
              (or_intror eq_refl) eq_refl eq_refl eq_refl) as [Hrun Hcount].
  split; [rewrite Hrun; reflexivity|exact Hcount].
Defined.


Lemma init_returns_plugin_run :
  let host := demo_host "darwin" module_missing_until_installed good_file in
  exists self,
    fst (__init__ host []) = Returns self
    /\ icon_factory self = Icon_fileType "/Applications/VirtualBox.app"
    /\ count is_import (snd (__init__ host [])) = 2%nat.
Proof.
  intros host. eexists. split; [reflexivity|].
  destruct (init_returns_plugin host [] _ eq_refl) as ([[_ Hi]|[Hl _]] & _).
  - split; [exact Hi|reflexivity].
  - discriminate Hl.
Defined.

End SetupRuns.
